(** * The Bot Framework channel connector of rasa.core.channels.botframework

    A shallow embedding of [BotFramework] (the output channel: token cache,
    [send] and the [send_*] helpers) and of [BotFrameworkInput] (the input
    channel: [from_credentials] and the [/webhook] route), followed by the
    properties the specification states about them.

    Python objects that travel through the connector (the decoded webhook
    body, the token response, payload fragments, credentials) are JSON data:
    they are modelled by [value].  Effects (the class-level token cache, the
    wall clock, [requests.post], the logger) are threaded through a
    state-and-exception monad [M] over a [World]. *)

From Stdlib Require Import ZArith List String Ascii Bool Lia.
Import ListNotations.

Local Open Scope string_scope.
Local Open Scope list_scope.

Set Warnings "-register-all".

(** ** Python data *)

(** A Python [float]: not-a-number, an infinity, or the finite number
    [m * 2^e]. *)
Inductive pyfloat : Type :=
| FNan
| FInf (negative : bool)
| FFinite (m e : Z).

(** The objects [json.loads] produces; a [dict] keeps its insertion order,
    as Python's does. *)
Inductive value : Type :=
| VNone
| VBool (b : bool)
| VInt (n : Z)
| VFloat (x : pyfloat)
| VStr (s : string)
| VList (items : list value)
| VDict (entries : list (string * value)).

Definition pydict : Type := list (string * value).

(** Exceptions.  Every class below derives from [Exception], except the
    ones wrapped in [BaseOnly] (KeyboardInterrupt, SystemExit,
    CancelledError, ...), which derive from [BaseException] only and are
    therefore not caught by [except Exception]. *)
Inductive exn : Type :=
| KeyError (key : string)
| TypeError
| IndexError
| ValueError
| OverflowError
| AttributeError (attr : string)
| InvalidUsage (message : string)
| MissingCredentials (channel : string)
| OtherException (class_name : string)
| BaseOnly (class_name : string).

Definition is_Exception (e : exn) : bool :=
  match e with
  | BaseOnly _ => false
  | _ => true
  end.

Inductive PyResult (A : Type) : Type :=
| Ok (a : A)
| Raise (e : exn).
Arguments Ok {A} a.
Arguments Raise {A} e.

Definition rbind {A B} (r : PyResult A) (k : A -> PyResult B) : PyResult B :=
  match r with
  | Ok a => k a
  | Raise e => Raise e
  end.

(** *** Dictionaries *)

(** [d.get(k)] without the default: the value bound to [k], if any. *)
Fixpoint dict_get (d : pydict) (k : string) : option value :=
  match d with
  | [] => None
  | (k', v) :: d' => if String.eqb k' k then Some v else dict_get d' k
  end.

(** [d[k] = v]: an existing key keeps its position, a new key goes last. *)
Fixpoint dict_set (d : pydict) (k : string) (v : value) : pydict :=
  match d with
  | [] => [(k, v)]
  | (k', v') :: d' =>
      if String.eqb k' k then (k', v) :: d' else (k', v') :: dict_set d' k v
  end.

(** [d.update(other)]: the items of [other] are assigned one by one. *)
Definition dict_update (d other : pydict) : pydict :=
  fold_left (fun acc kv => dict_set acc (fst kv) (snd kv)) other d.

(** Keys of a Python dict are pairwise distinct. *)
Fixpoint unique_keys (d : pydict) : bool :=
  match d with
  | [] => true
  | (k, _) :: d' =>
      match dict_get d' k with
      | None => unique_keys d'
      | Some _ => false
      end
  end.

(** [bool(v)], the test behind [if not v]. *)
Definition truthy (v : value) : bool :=
  match v with
  | VNone => false
  | VBool b => b
  | VInt n => negb (n =? 0)%Z
  | VFloat (FFinite m _) => negb (m =? 0)%Z
  | VFloat _ => true
  | VStr s => negb (String.eqb s "")
  | VList items => match items with [] => false | _ => true end
  | VDict entries => match entries with [] => false | _ => true end
  end.

(** [v[k]] for a string key [k]: only a dict can be subscripted by a
    string; a missing key is a [KeyError], anything else a [TypeError]. *)
Definition getitem (v : value) (k : string) : PyResult value :=
  match v with
  | VDict d =>
      match dict_get d k with
      | Some x => Ok x
      | None => Raise (KeyError k)
      end
  | _ => Raise TypeError
  end.

(** [v.get(k)]: [None] stands in for an absent key; objects other than
    dicts have no such method. *)
Definition get_method (v : value) (k : string) : PyResult value :=
  match v with
  | VDict d =>
      match dict_get d k with
      | Some x => Ok x
      | None => Ok VNone
      end
  | _ => Raise (AttributeError "get")
  end.

(** [elements[0]]. *)
Definition first_item {A} (elements : list A) : PyResult A :=
  match elements with
  | [] => Raise IndexError
  | x :: _ => Ok x
  end.

(** [v == s] for a string literal [s]. *)
Definition eq_str (v : value) (s : string) : bool :=
  match v with
  | VStr s' => String.eqb s' s
  | _ => false
  end.

(** *** Strings *)

Definition nl : ascii := ascii_of_nat 10.

(** The paragraph separator, a blank line. *)
Definition NLNL : string := String nl (String nl EmptyString).

(** [message.split(NLNL)]: the text is cut at every occurrence of the
    separator, scanning from the left; [acc] is the segment being read.
    (Strings are byte strings here; a line feed is a single byte in UTF-8
    and never part of another character.) *)
Fixpoint split_acc (acc : string) (s : string) : list string :=
  match s with
  | EmptyString => [acc]
  | String c1 tl =>
      match tl with
      | EmptyString => [(acc ++ String c1 EmptyString)%string]
      | String c2 rest =>
          if Ascii.eqb c1 nl && Ascii.eqb c2 nl
          then acc :: split_acc EmptyString rest
          else split_acc (acc ++ String c1 EmptyString)%string tl
      end
  end.

Definition split_paragraphs (message : string) : list string :=
  split_acc EmptyString message.

(** [NLNL.join(parts)]. *)
Definition join_paragraphs (parts : list string) : string :=
  String.concat NLNL parts.

(** ** Dates *)

(** A naive [datetime], counted in microseconds since 0001-01-01T00:00:00.
    [datetime.max] is the last microsecond of the year 9999. *)
Definition datetime : Type := Z.
Definition timedelta : Type := Z.

Definition usec_per_second : Z := 1000000.
Definition seconds_per_day : Z := 86400.
Definition datetime_end : Z := 3652059 * seconds_per_day * usec_per_second.
Definition timedelta_max_days : Z := 999999999.

(** [datetime.timedelta(seconds=n)] for an integer [n]; the day count of a
    timedelta is limited to nine digits. *)
Definition timedelta_seconds (n : Z) : PyResult timedelta :=
  let days := (n / seconds_per_day)%Z in
  if ((- timedelta_max_days <=? days) && (days <=? timedelta_max_days))%Z
  then Ok (n * usec_per_second)%Z
  else Raise OverflowError.

(** [t + d]: the sum has to be a date between the years 1 and 9999. *)
Definition datetime_add (t : datetime) (d : timedelta) : PyResult datetime :=
  let r := (t + d)%Z in
  if ((0 <=? r) && (r <? datetime_end))%Z then Ok r else Raise OverflowError.

(** ** HTTP and logging *)

(** The two shapes of [requests.post] in the connector:
    [requests.post(uri, data=payload, timeout=60)], a form-encoded request,
    and [requests.post(uri, headers=headers, data=json.dumps(data),
    timeout=60)], whose body is the JSON text of [data]. *)
Inductive HttpPost : Type :=
| PostForm (uri : string) (payload : pydict) (timeout : Z)
| PostJson (uri : string) (headers : value) (data : pydict) (timeout : Z).

(** A [requests.Response]: [resp_json] is what [.json()] gives. *)
Record Response : Type := mkResponse {
  status_code : Z;
  resp_text : string;
  resp_json : PyResult value
}.

(** [response.ok]: [raise_for_status] would not raise, that is, the status
    is neither a client error (4xx) nor a server error (5xx). *)
Definition response_ok (r : Response) : bool :=
  negb ((400 <=? status_code r) && (status_code r <? 600))%Z.

Inductive LogLevel : Type := DEBUG | INFO | ERROR.

Inductive LogArg : Type :=
| ArgStr (s : string)
| ArgExn (e : exn).

(** A log record keeps the message template and its arguments; rendering is
    the logging library's business. *)
Record LogRecord : Type := mkLog {
  log_level : LogLevel;
  log_msg : string;
  log_args : list LogArg
}.

(** The activity requests among [requests], oldest first: the address and
    the JSON document of each. *)
Fixpoint activities (requests : list HttpPost) : list (string * pydict) :=
  match requests with
  | [] => []
  | PostJson uri _ data _ :: requests' => (uri, data) :: activities requests'
  | PostForm _ _ _ :: requests' => activities requests'
  end.

(** ** The world the connector runs in *)

(** [token_expiration_date] and [headers] are the class attributes of
    [BotFramework], shared by all instances; [clock_reads] counts the calls
    of [datetime.datetime.now()] so far; [posts] and [log] record the
    requests issued and the records logged, oldest first. *)
Record World : Type := mkWorld {
  token_expiration_date : datetime;
  headers : value;
  clock_reads : nat;
  posts : list HttpPost;
  log : list LogRecord
}.

Definition M (A : Type) : Type := World -> PyResult A * World.

Definition ret {A} (a : A) : M A := fun w => (Ok a, w).

Definition raise {A} (e : exn) : M A := fun w => (Raise e, w).

Definition bind {A B} (m : M A) (k : A -> M B) : M B :=
  fun w =>
    match m w with
    | (Ok a, w') => k a w'
    | (Raise e, w') => (Raise e, w')
    end.

Definition lift {A} (r : PyResult A) : M A := fun w => (r, w).

Notation "x <- c1 ;; c2" := (bind c1 (fun x => c2))
  (at level 61, c1 at next level, right associativity).
Notation "c1 ;; c2" := (bind c1 (fun _ => c2))
  (at level 61, right associativity).

(** [try: body / except Exception as e: handler e]. *)
Definition try_except {A} (body : M A) (handler : exn -> M A) : M A :=
  fun w =>
    match body w with
    | (Ok a, w') => (Ok a, w')
    | (Raise e, w') =>
        if is_Exception e then handler e w' else (Raise e, w')
    end.

(** [for x in xs: body x]. *)
Fixpoint for_each {A} (xs : list A) (body : A -> M unit) : M unit :=
  match xs with
  | [] => ret tt
  | x :: xs' => body x ;; for_each xs' body
  end.

Definition get_token_expiration_date : M datetime :=
  fun w => (Ok (token_expiration_date w), w).

Definition set_token_expiration_date (t : datetime) : M unit :=
  fun w => (Ok tt, mkWorld t (headers w) (clock_reads w) (posts w) (log w)).

Definition get_headers_attr : M value :=
  fun w => (Ok (headers w), w).

Definition set_headers_attr (h : value) : M unit :=
  fun w =>
    (Ok tt,
     mkWorld (token_expiration_date w) h (clock_reads w) (posts w) (log w)).

Definition logger (level : LogLevel) (msg : string) (args : list LogArg)
  : M unit :=
  fun w =>
    (Ok tt,
     mkWorld (token_expiration_date w) (headers w) (clock_reads w) (posts w)
             (log w ++ [mkLog level msg args])).

(** The world after one more reading of the clock. *)
Definition tick (w : World) : World :=
  mkWorld (token_expiration_date w) (headers w) (S (clock_reads w))
          (posts w) (log w).

(** The world after one more request. *)
Definition record_post (p : HttpPost) (w : World) : World :=
  mkWorld (token_expiration_date w) (headers w) (clock_reads w)
          (posts w ++ [p]) (log w).

Definition MICROSOFT_OAUTH2_URL : string := "https://login.microsoftonline.com".

Definition MICROSOFT_OAUTH2_PATH : string := "botframework.com/oauth2/v2.0/token".

(** ** The output channel *)

(** An instance of [BotFramework], as [__init__] fills it. *)
Record BotFramework : Type := mkBotFramework {
  app_id : value;
  app_password : value;
  conversation : value;
  global_uri : string;
  bot_id : value
}.

(** What the interpreter and the libraries contribute: [str_object] is
    [str(v)] for an object that is not itself a string, [int_of_str] is
    [int(s)] for a string ([None] when it raises [ValueError]).  What the
    outside contributes: [clock k] is the [k]-th reading of
    [datetime.datetime.now()]; [network history p] is the outcome of issuing
    the request [p] after the requests in [history], a response or an
    exception of the transport. *)
Class Runtime : Type := mkRuntime {
  str_object : value -> string;
  int_of_str : string -> option Z;
  clock : nat -> datetime;
  network : list HttpPost -> HttpPost -> PyResult Response
}.

Section Connector.

Context {rt : Runtime}.

(** [str(v)], as the [{}] and [%s] fields of format strings apply it. *)
Definition format_arg (v : value) : string :=
  match v with
  | VStr s => s
  | _ => str_object v
  end.

(** [int(v)]. *)
Definition py_int (v : value) : PyResult Z :=
  match v with
  | VInt n => Ok n
  | VBool b => Ok (if b then 1 else 0)%Z
  | VFloat FNan => Raise ValueError
  | VFloat (FInf _) => Raise OverflowError
  | VFloat (FFinite m e) =>
      Ok (if (0 <=? e)%Z then m * 2 ^ e else Z.quot m (2 ^ (- e)))%Z
  | VStr s =>
      match int_of_str s with
      | Some n => Ok n
      | None => Raise ValueError
      end
  | _ => Raise TypeError
  end.

Definition datetime_now : M datetime :=
  fun w => (Ok (clock (clock_reads w)), tick w).

Definition requests_post (p : HttpPost) : M Response :=
  fun w => (network (posts w) p, record_post p w).

Definition BotFramework_init
    (app_id app_password conversation bot_id service_url : value)
  : BotFramework :=
  mkBotFramework app_id app_password conversation
                 (format_arg service_url ++ "v3/")%string bot_id.

(** The request [_get_headers] sends to the token endpoint. *)
Definition token_request (self : BotFramework) : HttpPost :=
  let uri := (MICROSOFT_OAUTH2_URL ++ "/" ++ MICROSOFT_OAUTH2_PATH)%string in
  let grant_type := "client_credentials" in
  let scope := "https://api.botframework.com/.default" in
  let payload := [("client_id", app_id self);
                  ("client_secret", app_password self);
                  ("grant_type", VStr grant_type);
                  ("scope", VStr scope)] in
  PostForm uri payload 60.

Definition bearer_headers (access_token : value) : value :=
  VDict [("content-type", VStr "application/json");
         ("Authorization",
          VStr ("Bearer " ++ format_arg access_token)%string)].

Definition _get_headers (self : BotFramework) : M value :=
  expiry <- get_token_expiration_date ;;
  now <- datetime_now ;;
  if (expiry <? now)%Z then
    token_response <- requests_post (token_request self) ;;
    if response_ok token_response then
      token_data <- lift (resp_json token_response) ;;
      access_token <- lift (getitem token_data "access_token") ;;
      token_expiration <- lift (getitem token_data "expires_in") ;;
      now' <- datetime_now ;;
      seconds <- lift (py_int token_expiration) ;;
      delta <- lift (timedelta_seconds seconds) ;;
      new_expiry <- lift (datetime_add now' delta) ;;
      set_token_expiration_date new_expiry ;;
      set_headers_attr (bearer_headers access_token) ;;
      get_headers_attr
    else
      logger ERROR "Could not get BotFramework token" [] ;;
      ret VNone
  else
    get_headers_attr.

(** The defaults [send] starts from. *)
Definition envelope (self : BotFramework) (recipient_id : value) : pydict :=
  [("type", VStr "message");
   ("recipient", VDict [("id", recipient_id)]);
   ("from", bot_id self);
   ("channelData",
    VDict [("notification", VDict [("alert", VStr "true")])]);
   ("text", VStr "")].

(** The address [send] posts to. *)
Definition post_message_uri (self : BotFramework) (conversation_id : value)
  : string :=
  (global_uri self ++ "conversations/" ++ format_arg conversation_id
   ++ "/activities")%string.

Definition send (self : BotFramework) (recipient_id : value)
    (message_data : pydict) : M unit :=
  conversation_id <- lift (getitem (conversation self) "id") ;;
  let uri := post_message_uri self conversation_id in
  let data := dict_update (envelope self recipient_id) message_data in
  headers <- _get_headers self ;;
  send_response <- requests_post (PostJson uri headers data 60) ;;
  if negb (response_ok send_response) then
    logger ERROR "Error trying to send botframework messge. Response: %s"
           [ArgStr (resp_text send_response)]
  else
    ret tt.

Definition send_text_message (self : BotFramework) (recipient_id : value)
    (message : string) : M unit :=
  for_each (split_paragraphs message)
           (fun message_part =>
              let text_message := [("text", VStr message_part)] in
              send self recipient_id text_message).

Definition send_image_url (self : BotFramework) (recipient_id : value)
    (image_url : value) : M unit :=
  let hero_content :=
    VDict [("contentType", VStr "application/vnd.microsoft.card.hero");
           ("content", VDict [("images", VList [VDict [("url", image_url)]])])]
  in
  let image_message := [("attachments", VList [hero_content])] in
  send self recipient_id image_message.

Definition send_text_with_buttons (self : BotFramework) (recipient_id : value)
    (message : value) (buttons : value) : M unit :=
  let hero_content :=
    VDict [("contentType", VStr "application/vnd.microsoft.card.hero");
           ("content", VDict [("subtitle", message); ("buttons", buttons)])]
  in
  let buttons_message := [("attachments", VList [hero_content])] in
  send self recipient_id buttons_message.

Definition send_custom_message (self : BotFramework) (recipient_id : value)
    (elements : list pydict) : M unit :=
  message_data <- lift (first_item elements) ;;
  send self recipient_id message_data.

(** ** The input channel *)

Record BotFrameworkInput : Type := mkBotFrameworkInput {
  in_app_id : value;
  in_app_password : value
}.

Definition name : string := "botframework".

(** Modelled from the spec: [InputChannel.raise_missing_credentials_exception]
    is defined in rasa.core.channels.channel, which is not among the
    sources; as the docstring of [from_credentials] says, it raises an
    exception, which names the channel. *)
Definition raise_missing_credentials_exception : PyResult unit :=
  Raise (MissingCredentials name).

Definition from_credentials (credentials : value)
  : PyResult BotFrameworkInput :=
  rbind (if negb (truthy credentials)
         then raise_missing_credentials_exception
         else Ok tt)
        (fun _ =>
  rbind (get_method credentials "app_id") (fun app_id =>
  rbind (get_method credentials "app_password") (fun app_password =>
  Ok (mkBotFrameworkInput app_id app_password)))).

(** A [sanic] request, as far as the route reads it: [request_json] is the
    outcome of evaluating the property [request.json], which decodes the
    body; it is [None] for an empty body and raises [InvalidUsage] for a
    body that is not JSON. *)
Record Request : Type := mkRequest {
  request_json : PyResult value
}.

Record HTTPResponse : Type := mkHTTPResponse {
  status : Z;
  body : string;
  content_type : string
}.

(** [response.text(body)]. *)
Definition response_text (body : string) : HTTPResponse :=
  mkHTTPResponse 200 body "text/plain; charset=utf-8".

(** The class [UserMessage] is defined in rasa.core.channels.channel, which
    is not among the sources: the type of its instances and its constructor
    are parameters.  The callback [on_new_message] is the argument of
    [blueprint]. *)
Section Blueprint.

Variable user_message : Type.
Variable UserMessage :
  value -> BotFramework -> value -> string -> PyResult user_message.
Variable on_new_message : user_message -> M unit.

(** The body of the [try] block of the route. *)
Definition handle_event (self : BotFrameworkInput) (postdata : value)
  : M unit :=
  event_type <- lift (getitem postdata "type") ;;
  if eq_str event_type "message" then
    conversation <- lift (getitem postdata "conversation") ;;
    recipient <- lift (getitem postdata "recipient") ;;
    service_url <- lift (getitem postdata "serviceUrl") ;;
    let out_channel :=
      BotFramework_init (in_app_id self) (in_app_password self)
                        conversation recipient service_url in
    text <- lift (getitem postdata "text") ;;
    sender <- lift (getitem postdata "from") ;;
    sender_id <- lift (getitem sender "id") ;;
    user_msg <- lift (UserMessage text out_channel sender_id name) ;;
    on_new_message user_msg
  else
    logger INFO "Not received message type" [].

Definition webhook (self : BotFrameworkInput) (request : Request)
  : M HTTPResponse :=
  postdata <- lift (request_json request) ;;
  try_except
    (handle_event self postdata)
    (fun e =>
       logger ERROR "Exception when trying to handle message.{0}" [ArgExn e] ;;
       logger DEBUG "%s" [ArgExn e]) ;;
  ret (response_text "success").

End Blueprint.

End Connector.

(** ** Worlds met on the way *)

Section Worlds.

Context {rt : Runtime}.

(** The world right after the class [BotFramework] has been created: its
    body has read the clock once and no token has been fetched yet. *)
Definition class_created : World :=
  mkWorld (clock 0) VNone 1 [] [].

(** The world after a refused token request: one clock reading, the
    request, and the error record. *)
Definition after_refusal (self : BotFramework) (w : World) : World :=
  mkWorld (token_expiration_date w) (headers w) (S (clock_reads w))
          (posts w ++ [token_request self])
          (log w ++ [mkLog ERROR "Could not get BotFramework token" []]).

(** The world after a successful refresh. *)
Definition after_refresh (self : BotFramework) (w : World)
    (new_expiry : datetime) (access_token : value) : World :=
  mkWorld new_expiry (bearer_headers access_token) (S (S (clock_reads w)))
          (posts w ++ [token_request self]) (log w).

(** The world after [send] has issued the request [p], on top of [w1],
    and got [r] back. *)
Definition after_delivery (p : HttpPost) (r : Response) (w1 : World) : World :=
  mkWorld (token_expiration_date w1) (headers w1) (clock_reads w1)
          (posts w1 ++ [p])
          (if response_ok r then log w1
           else log w1 ++
                [mkLog ERROR
                   "Error trying to send botframework messge. Response: %s"
                   [ArgStr (resp_text r)]]).

(** The request [send] issues for [message_data], given the conversation
    id and the headers it obtained. *)
Definition activity_request (self : BotFramework)
    (recipient_id conversation_id headers : value) (message_data : pydict)
  : HttpPost :=
  PostJson (post_message_uri self conversation_id) headers
           (dict_update (envelope self recipient_id) message_data) 60.

(** The document [send] posts for the paragraph [part]. *)
Definition text_activity (self : BotFramework) (recipient_id : value)
    (part : string) : pydict :=
  [("type", VStr "message");
   ("recipient", VDict [("id", recipient_id)]);
   ("from", bot_id self);
   ("channelData",
    VDict [("notification", VDict [("alert", VStr "true")])]);
   ("text", VStr part)].

End Worlds.

(** The address of the activity endpoint, read off the specification:
    [{service_base_url}/v3/conversations/{conversation_id}/activities]. *)
Definition spec_activity_url (service_base_url conversation_id : string)
  : string :=
  (service_base_url ++ "/v3/conversations/" ++ conversation_id
   ++ "/activities")%string.

(** The texts of the examples: three paragraphs; one paragraph; two
    paragraphs with two separators in a row between them. *)
Definition text_A_B_C : string := ("A" ++ NLNL ++ "B" ++ NLNL ++ "C")%string.

Definition text_single : string := "single".


(** ** Scenarios

    Concrete runtimes, used to run the connector on examples. *)

(** The scenarios below put strings only into format fields and hand
    integers only to [int]: the two functions of the interpreter are never
    consulted in them. *)
Definition no_str_object : value -> string := fun _ => EmptyString.

Definition no_int_of_str : string -> option Z := fun _ => None.

(** A noon in the year 2019, and a clock that advances three seconds from
    one reading to the next, for its first thousand readings. *)
Definition noon : datetime := (63695000000 * usec_per_second)%Z.

Definition steady_clock : nat -> datetime :=
  fun k => (noon + 3 * usec_per_second * Z.of_nat (Nat.min k 1000))%Z.

Definition token_body : value :=
  VDict [("token_type", VStr "Bearer");
         ("expires_in", VInt 3600);
         ("access_token", VStr "eyJ0eXAi")].

Definition token_granted : Response := mkResponse 200 "" (Ok token_body).

Definition token_refused : Response :=
  mkResponse 401 "Unauthorized" (Raise ValueError).

Definition delivered : Response :=
  mkResponse 200 "" (Ok (VDict [("id", VStr "1")])).

Definition unauthorized : Response :=
  mkResponse 401 "Unauthorized" (Raise ValueError).

Definition unavailable : Response :=
  mkResponse 503 "Service Unavailable" (Raise ValueError).

(** A network that answers every token request with [token_response] and
    every activity request with [activity_response]. *)
Definition scripted (token_response activity_response : Response)
  : list HttpPost -> HttpPost -> PyResult Response :=
  fun _ p =>
    match p with
    | PostForm _ _ _ => Ok token_response
    | PostJson _ _ _ _ => Ok activity_response
    end.

Definition granting_runtime : Runtime :=
  mkRuntime no_str_object no_int_of_str steady_clock
            (scripted token_granted delivered).

Definition refusing_runtime : Runtime :=
  mkRuntime no_str_object no_int_of_str steady_clock
            (scripted token_refused unauthorized).

Definition failing_runtime : Runtime :=
  mkRuntime no_str_object no_int_of_str steady_clock
            (scripted token_granted unavailable).

(** The channel the route builds for an event of conversation [c1]. *)
Definition demo_bot {rt : Runtime} : BotFramework :=
  BotFramework_init (VStr "app-id") (VStr "app-secret")
                    (VDict [("id", VStr "c1")])
                    (VDict [("id", VStr "bot"); ("name", VStr "Bot")])
                    (VStr "https://smba.trafficmanager.net/apis/").

(** A world whose cached token is good for another hour. *)
Definition cached_world : World :=
  mkWorld (noon + 3600 * usec_per_second)%Z
          (VDict [("content-type", VStr "application/json");
                  ("Authorization", VStr "Bearer eyJ0eXAi")])
          1 [] [].

(** Modelled from the spec: the class [UserMessage] of
    rasa.core.channels.channel, which is not among the sources, as the
    internal message of the specification: the text, the sender id, the
    reply channel and the name of the input channel. *)
Record InternalMessage : Type := mkInternalMessage {
  text : value;
  output_channel : BotFramework;
  sender_id : value;
  input_channel : string
}.

Definition new_internal_message (text : value) (output_channel : BotFramework)
    (sender_id : value) (input_channel : string) : PyResult InternalMessage :=
  Ok (mkInternalMessage text output_channel sender_id input_channel).

(** A pipeline that answers every message with its own text, and one that
    fails on every message. *)
Definition echo {rt : Runtime} (message : InternalMessage) : M unit :=
  match text message with
  | VStr s => send_text_message (output_channel message) (sender_id message) s
  | _ => raise TypeError
  end.

Definition broken_pipeline (message : InternalMessage) : M unit :=
  raise (OtherException "RuntimeError").

Definition demo_input : BotFrameworkInput :=
  mkBotFrameworkInput (VStr "app-id") (VStr "app-secret").

(** A request whose body is not JSON, and the event of a user message. *)
Definition unparsable_request : Request :=
  mkRequest (Raise (InvalidUsage "Failed when parsing body as json")).

Definition message_event : value :=
  VDict [("type", VStr "message");
         ("text", VStr "hello");
         ("from", VDict [("id", VStr "user")]);
         ("recipient", VDict [("id", VStr "bot"); ("name", VStr "Bot")]);
         ("conversation", VDict [("id", VStr "c1")]);
         ("serviceUrl", VStr "https://smba.trafficmanager.net/apis/")].

(** ** Further notions and scenarios *)

(** Does [s] contain the paragraph separator? *)
Fixpoint has_separator (s : string) : bool :=
  match s with
  | EmptyString => false
  | String c1 tl =>
      match tl with
      | EmptyString => false
      | String c2 _ =>
          (Ascii.eqb c1 nl && Ascii.eqb c2 nl) || has_separator tl
      end
  end.

(** Is the last character of [s] a line feed? *)
Fixpoint ends_with_nl (s : string) : bool :=
  match s with
  | EmptyString => false
  | String c EmptyString => Ascii.eqb c nl
  | String _ tl => ends_with_nl tl
  end.

(** Is the first character of [s] a line feed? *)
Definition starts_with_nl (s : string) : bool :=
  match s with
  | EmptyString => false
  | String c _ => Ascii.eqb c nl
  end.

(** The hero cards [send_image_url] and [send_text_with_buttons] attach. *)
Definition image_card (image_url : value) : value :=
  VDict [("contentType", VStr "application/vnd.microsoft.card.hero");
         ("content", VDict [("images", VList [VDict [("url", image_url)]])])].

Definition buttons_card (message buttons : value) : value :=
  VDict [("contentType", VStr "application/vnd.microsoft.card.hero");
         ("content", VDict [("subtitle", message); ("buttons", buttons)])].

(** The lookups the route makes in a message event, in the order in which
    it makes them: the first one that fails decides the exception. *)
Definition event_fields (postdata : value)
  : PyResult (value * value * value * value * value) :=
  rbind (getitem postdata "conversation") (fun conversation =>
  rbind (getitem postdata "recipient") (fun recipient =>
  rbind (getitem postdata "serviceUrl") (fun service_url =>
  rbind (getitem postdata "text") (fun text =>
  rbind (getitem postdata "from") (fun sender =>
  rbind (getitem sender "id") (fun sender_id =>
  Ok (conversation, recipient, service_url, text, sender_id))))))).

(** The two records the route logs for an exception it has caught. *)
Definition caught_records (e : exn) : list LogRecord :=
  [mkLog ERROR "Exception when trying to handle message.{0}" [ArgExn e];
   mkLog DEBUG "%s" [ArgExn e]].

(** [w] with [records] logged on top. *)
Definition with_log (w : World) (records : list LogRecord) : World :=
  mkWorld (token_expiration_date w) (headers w) (clock_reads w) (posts w)
          (log w ++ records).

(** A token endpoint that answers 200 with a body that has no token in
    it, and a network that is down. *)
Definition token_without_token : Response :=
  mkResponse 200 "" (Ok (VDict [("expires_in", VInt 3600)])).

Definition malformed_runtime : Runtime :=
  mkRuntime no_str_object no_int_of_str steady_clock
            (scripted token_without_token delivered).

Definition offline_runtime : Runtime :=
  mkRuntime no_str_object no_int_of_str steady_clock
            (fun _ _ => Raise (OtherException "ConnectionError")).

(** A channel whose conversation carries no id, and a channel of another
    application in another conversation. *)
Definition lost_bot {rt : Runtime} : BotFramework :=
  BotFramework_init (VStr "app-id") (VStr "app-secret") (VDict [])
                    (VDict [("id", VStr "bot")])
                    (VStr "https://smba.trafficmanager.net/apis/").

Definition other_bot {rt : Runtime} : BotFramework :=
  BotFramework_init (VStr "other-app") (VStr "other-secret")
                    (VDict [("id", VStr "c2")])
                    (VDict [("id", VStr "bot2")])
                    (VStr "https://smba.trafficmanager.net/emea/").

(** A world whose cached token expires at the very instant of the next
    clock reading. *)
Definition expiring_world : World :=
  mkWorld (noon + 3 * usec_per_second)%Z
          (VDict [("content-type", VStr "application/json");
                  ("Authorization", VStr "Bearer eyJ0eXAi")])
          1 [] [].

(** An event of another type, and a message event without its fields. *)
Definition update_event : value :=
  VDict [("type", VStr "conversationUpdate")].

Definition bare_message_event : value :=
  VDict [("type", VStr "message")].

(** A pipeline that is cancelled while it handles the message. *)
Definition cancelled_pipeline (message : InternalMessage) : M unit :=
  raise (BaseOnly "CancelledError").

(** A token endpoint that answers with a redirect status and a token all
    the same, and one that grants a token for a thousand million days. *)
Definition token_redirected : Response := mkResponse 302 "" (Ok token_body).

Definition redirecting_runtime : Runtime :=
  mkRuntime no_str_object no_int_of_str steady_clock
            (scripted token_redirected delivered).

Definition token_forever : Response :=
  mkResponse 200 ""
    (Ok (VDict [("token_type", VStr "Bearer");
                ("expires_in", VInt 86400000000000);
                ("access_token", VStr "eyJ0eXAi")])).

Definition overflowing_runtime : Runtime :=
  mkRuntime no_str_object no_int_of_str steady_clock
            (scripted token_forever delivered).

(** The records [_get_headers] and [send] log for a token request that was
    refused and for an activity that was answered with a bad status. *)
Definition token_error_record : LogRecord :=
  mkLog ERROR "Could not get BotFramework token" [].

Definition delivery_error_record (r : Response) : LogRecord :=
  mkLog ERROR "Error trying to send botframework messge. Response: %s"
        [ArgStr (resp_text r)].

(** * Properties *)

(** ** Dictionaries and paragraphs *)

Lemma dict_get_set (d : pydict) (k k' : string) (v : value) :
  dict_get (dict_set d k v) k' =
  if String.eqb k k' then Some v else dict_get d k'.
Proof.
  induction d as [|[k0 v0] d IH]; simpl.
  - reflexivity.
  - destruct (String.eqb k0 k) eqn:E0; simpl.
    + apply String.eqb_eq in E0; subst k0.
      destruct (String.eqb k k'); reflexivity.
    + rewrite IH.
      destruct (String.eqb k0 k') eqn:E1; [|reflexivity].
      apply String.eqb_eq in E1; subst k0.
      rewrite String.eqb_sym, E0. reflexivity.
Qed.

Lemma dict_update_cons (d other : pydict) (k : string) (v : value) :
  dict_update d ((k, v) :: other) = dict_update (dict_set d k v) other.
Proof. reflexivity. Qed.

(** After [d.update(other)] a key of [other] has the value [other] gives
    it, and any other key has the value it had in [d]. *)
Lemma dict_get_update (other : pydict) :
  unique_keys other = true ->
  forall (d : pydict) (k : string),
    dict_get (dict_update d other) k =
    match dict_get other k with
    | Some v => Some v
    | None => dict_get d k
    end.
Proof.
  induction other as [|[k0 v0] other IH]; intros U d k.
  - reflexivity.
  - simpl in U. destruct (dict_get other k0) eqn:G0; [discriminate|].
    rewrite dict_update_cons, (IH U), dict_get_set. simpl.
    destruct (String.eqb k0 k) eqn:E.
    + apply String.eqb_eq in E; subst k0. rewrite G0. reflexivity.
    + reflexivity.
Qed.

Lemma split_acc_two (acc : string) (c1 c2 : ascii) (rest : string) :
  split_acc acc (String c1 (String c2 rest)) =
  if Ascii.eqb c1 nl && Ascii.eqb c2 nl
  then acc :: split_acc EmptyString rest
  else split_acc (acc ++ String c1 EmptyString)%string (String c2 rest).
Proof. reflexivity. Qed.

Lemma split_acc_not_nil (s acc : string) : split_acc acc s <> [].
Proof.
  revert acc.
  assert (H : forall n s, String.length s <= n ->
                          forall acc, split_acc acc s <> []).
  { induction n as [|n IH]; intros s0 L acc.
    - destruct s0; [discriminate | simpl in L; lia].
    - destruct s0 as [|c1 [|c2 rest]]; try discriminate.
      rewrite split_acc_two.
      destruct (Ascii.eqb c1 nl && Ascii.eqb c2 nl); [discriminate|].
      apply IH. simpl in L |- *. lia. }
  intro acc. apply (H (String.length s)). lia.
Qed.

Lemma concat_cons_nonempty (sep x : string) (xs : list string) :
  xs <> [] -> String.concat sep (x :: xs) = (x ++ sep ++ String.concat sep xs)%string.
Proof. destruct xs; [congruence | reflexivity]. Qed.

Lemma append_assoc (a b c : string) :
  ((a ++ b) ++ c)%string = (a ++ (b ++ c))%string.
Proof. induction a; simpl; congruence. Qed.

Lemma append_empty (a : string) : (a ++ "")%string = a.
Proof. induction a; simpl; congruence. Qed.

Lemma ascii_eqb_nl (c : ascii) : Ascii.eqb c nl = true -> c = nl.
Proof. apply Ascii.eqb_eq. Qed.

(** Joining the segments with the separator gives the text back. *)
Lemma split_acc_join (s acc : string) :
  join_paragraphs (split_acc acc s) = (acc ++ s)%string.
Proof.
  revert acc.
  assert (H : forall n s, String.length s <= n ->
                          forall acc, join_paragraphs (split_acc acc s)
                                      = (acc ++ s)%string).
  { induction n as [|n IH]; intros s0 L acc.
    - destruct s0; [symmetry; apply append_empty | simpl in L; lia].
    - destruct s0 as [|c1 [|c2 rest]].
      + symmetry; apply append_empty.
      + reflexivity.
      + rewrite split_acc_two.
        destruct (Ascii.eqb c1 nl) eqn:E1, (Ascii.eqb c2 nl) eqn:E2; simpl andb; cbv iota.
        * apply ascii_eqb_nl in E1, E2. subst c1 c2.
          unfold join_paragraphs.
          rewrite concat_cons_nonempty by apply split_acc_not_nil.
          fold (join_paragraphs (split_acc "" rest)).
          rewrite IH by (simpl in L; lia). reflexivity.
        * rewrite IH by (simpl in L |- *; lia). apply append_assoc.
        * rewrite IH by (simpl in L |- *; lia). apply append_assoc.
        * rewrite IH by (simpl in L |- *; lia). apply append_assoc. }
  intro acc. apply (H (String.length s)). lia.
Qed.

Lemma split_paragraphs_join (message : string) :
  join_paragraphs (split_paragraphs message) = message.
Proof. unfold split_paragraphs. rewrite split_acc_join. reflexivity. Qed.

(** ** The token cache *)

Section TokenCache.

Context {rt : Runtime}.

(** While the cached expiration date is not in the past, [_get_headers]
    only reads the clock. *)
Lemma get_headers_cached (self : BotFramework) (w : World) :
  (clock (clock_reads w) <= token_expiration_date w)%Z ->
  _get_headers self w = (Ok (headers w), tick w).
Proof.
  intro H. unfold _get_headers, bind, get_token_expiration_date, datetime_now.
  replace (token_expiration_date w <? clock (clock_reads w))%Z with false
    by (symmetry; apply Z.ltb_ge; exact H).
  reflexivity.
Qed.

(** Once it is in the past, the first thing that happens is the request to
    the token endpoint. *)
Lemma get_headers_expired (self : BotFramework) (w : World) :
  (token_expiration_date w < clock (clock_reads w))%Z ->
  _get_headers self w =
  (token_response <- requests_post (token_request self) ;;
   if response_ok token_response then
     token_data <- lift (resp_json token_response) ;;
     access_token <- lift (getitem token_data "access_token") ;;
     token_expiration <- lift (getitem token_data "expires_in") ;;
     now' <- datetime_now ;;
     seconds <- lift (py_int token_expiration) ;;
     delta <- lift (timedelta_seconds seconds) ;;
     new_expiry <- lift (datetime_add now' delta) ;;
     set_token_expiration_date new_expiry ;;
     set_headers_attr (bearer_headers access_token) ;;
     get_headers_attr
   else
     logger ERROR "Could not get BotFramework token" [] ;;
     ret VNone) (tick w).
Proof.
  intro H. unfold _get_headers at 1.
  unfold bind at 1, get_token_expiration_date.
  unfold bind at 1, datetime_now at 1.
  replace (token_expiration_date w <? clock (clock_reads w))%Z with true
    by (symmetry; apply Z.ltb_lt; exact H).
  reflexivity.
Qed.

Lemma get_headers_refused (self : BotFramework) (w : World) (resp : Response) :
  (token_expiration_date w < clock (clock_reads w))%Z ->
  network (posts w) (token_request self) = Ok resp ->
  response_ok resp = false ->
  _get_headers self w = (Ok VNone, after_refusal self w).
Proof.
  intros H N R. rewrite get_headers_expired by exact H.
  unfold bind at 1, requests_post at 1. cbn [tick posts].
  rewrite N, R. reflexivity.
Qed.

Lemma get_headers_refreshed (self : BotFramework) (w : World)
    (resp : Response) (data tok ttl : value) (seconds : Z)
    (delta : timedelta) (new_expiry : datetime) :
  (token_expiration_date w < clock (clock_reads w))%Z ->
  network (posts w) (token_request self) = Ok resp ->
  response_ok resp = true ->
  resp_json resp = Ok data ->
  getitem data "access_token" = Ok tok ->
  getitem data "expires_in" = Ok ttl ->
  py_int ttl = Ok seconds ->
  timedelta_seconds seconds = Ok delta ->
  datetime_add (clock (S (clock_reads w))) delta = Ok new_expiry ->
  _get_headers self w =
  (Ok (bearer_headers tok), after_refresh self w new_expiry tok).
Proof.
  intros H N R J A E I T D. rewrite get_headers_expired by exact H.
  unfold bind at 1, requests_post at 1. cbn [tick posts].
  rewrite N, R. unfold bind, lift, datetime_now. cbn.
  rewrite J, A, E, I, T, D. reflexivity.
Qed.

(** Whatever the outcome, an expired token costs exactly one request, the
    one to the token endpoint. *)
Lemma get_headers_expired_posts (self : BotFramework) (w : World) :
  (token_expiration_date w < clock (clock_reads w))%Z ->
  posts (snd (_get_headers self w)) = posts w ++ [token_request self].
Proof.
  intro H. rewrite get_headers_expired by exact H.
  unfold bind at 1, requests_post at 1. cbn [tick posts].
  destruct (network (posts w) (token_request self)) as [resp|e]; [|reflexivity].
  destruct (response_ok resp); [|reflexivity].
  unfold bind, lift, datetime_now, set_token_expiration_date,
    set_headers_attr, get_headers_attr.
  destruct (resp_json resp) as [data|]; [|reflexivity].
  destruct (getitem data "access_token") as [tok|]; [|reflexivity].
  destruct (getitem data "expires_in") as [ttl|]; [|reflexivity].
  cbn.
  destruct (py_int ttl) as [seconds|]; [|reflexivity].
  destruct (timedelta_seconds seconds) as [delta|]; [|reflexivity].
  destruct (datetime_add _ delta); reflexivity.
Qed.

End TokenCache.

Section TokenClaims.

Context {rt : Runtime}.

Lemma timedelta_seconds_ok (n : Z) (d : timedelta) :
  timedelta_seconds n = Ok d -> d = (n * usec_per_second)%Z.
Proof.
  unfold timedelta_seconds.
  destruct (_ && _); intro H; [injection H as <-; reflexivity | discriminate].
Qed.

Lemma datetime_add_ok (t : datetime) (d : timedelta) (r : datetime) :
  datetime_add t d = Ok r -> r = (t + d)%Z.
Proof.
  unfold datetime_add.
  destruct (_ && _); intro H; [injection H as <-; reflexivity | discriminate].
Qed.

Lemma timedelta_seconds_raises (n : Z) (e : exn) :
  timedelta_seconds n = Raise e -> e = OverflowError.
Proof.
  unfold timedelta_seconds.
  destruct (_ && _); intro H; [discriminate | injection H as <-; reflexivity].
Qed.

Lemma datetime_add_raises (t : datetime) (d : timedelta) (e : exn) :
  datetime_add t d = Raise e -> e = OverflowError.
Proof.
  unfold datetime_add.
  destruct (_ && _); intro H; [discriminate | injection H as <-; reflexivity].
Qed.

(** C5.  If the cached expiration date is in the future when
    [_get_headers] is called, the call issues no request, returns the
    cached headers, and leaves the cache as it was. *)
Theorem valid_token_is_reused (self : BotFramework) (w : World) :
  (clock (clock_reads w) < token_expiration_date w)%Z ->
  fst (_get_headers self w) = Ok (headers w) /\
  posts (snd (_get_headers self w)) = posts w /\
  headers (snd (_get_headers self w)) = headers w /\
  token_expiration_date (snd (_get_headers self w)) = token_expiration_date w.
Proof.
  intro H. rewrite get_headers_cached by lia. repeat split.
Qed.

(** C6, amended.  If the cached expiration date is in the past when
    [_get_headers] is called, the call issues exactly one request, to the
    token endpoint; when the response is ok, carries an access token and an
    [expires_in] that [int] accepts, and the number of seconds makes a
    timedelta and, added to the clock value read after the response has
    arrived, a date that Python can represent, the new expiration date is
    that clock value plus [expires_in] seconds; when the timedelta or the
    date is out of range, the call raises [OverflowError] and nothing is
    stored. *)
Theorem expired_token_is_refreshed (self : BotFramework) (w : World) :
  (token_expiration_date w < clock (clock_reads w))%Z ->
  posts (snd (_get_headers self w)) = posts w ++ [token_request self] /\
  (forall (resp : Response) (data tok ttl : value) (seconds : Z)
         (delta : timedelta) (new_expiry : datetime),
    network (posts w) (token_request self) = Ok resp ->
    response_ok resp = true ->
    resp_json resp = Ok data ->
    getitem data "access_token" = Ok tok ->
    getitem data "expires_in" = Ok ttl ->
    py_int ttl = Ok seconds ->
    timedelta_seconds seconds = Ok delta ->
    datetime_add (clock (S (clock_reads w))) delta = Ok new_expiry ->
    fst (_get_headers self w) = Ok (bearer_headers tok) /\
    headers (snd (_get_headers self w)) = bearer_headers tok /\
    token_expiration_date (snd (_get_headers self w)) =
    (clock (S (clock_reads w)) + seconds * usec_per_second)%Z) /\
  (forall (resp : Response) (data tok ttl : value) (seconds : Z) (e : exn),
    network (posts w) (token_request self) = Ok resp ->
    response_ok resp = true ->
    resp_json resp = Ok data ->
    getitem data "access_token" = Ok tok ->
    getitem data "expires_in" = Ok ttl ->
    py_int ttl = Ok seconds ->
    timedelta_seconds seconds = Raise e \/
    (exists delta,
       timedelta_seconds seconds = Ok delta /\
       datetime_add (clock (S (clock_reads w))) delta = Raise e) ->
    e = OverflowError /\
    fst (_get_headers self w) = Raise e /\
    headers (snd (_get_headers self w)) = headers w /\
    token_expiration_date (snd (_get_headers self w)) =
    token_expiration_date w).
Proof.
  intro H. split; [|split].
  - apply get_headers_expired_posts, H.
  - intros resp data tok ttl seconds delta new_expiry N R J A E I T D.
    rewrite (get_headers_refreshed self w resp data tok ttl seconds delta
               new_expiry) by assumption.
    cbn. apply timedelta_seconds_ok in T. apply datetime_add_ok in D.
    subst. repeat split.
  - intros resp data tok ttl seconds e N R J A E I O.
    assert (G : _get_headers self w =
                (Raise e, tick (record_post (token_request self) (tick w)))).
    { rewrite get_headers_expired by exact H.
      unfold bind at 1, requests_post at 1. cbn [tick posts].
      rewrite N, R. unfold bind, lift, datetime_now. cbn.
      rewrite J, A, E, I.
      destruct O as [T|(delta & T & D)].
      - rewrite T. reflexivity.
      - rewrite T, D. reflexivity. }
    rewrite G. split; [|repeat split].
    destruct O as [T|(delta & _ & D)].
    + exact (timedelta_seconds_raises seconds e T).
    + exact (datetime_add_raises _ delta e D).
Qed.

End TokenClaims.

(** C5 at work: an hour before the cached token expires. *)
Lemma valid_token_is_reused_witness :
  (@clock granting_runtime (clock_reads cached_world)
   < token_expiration_date cached_world)%Z /\
  fst (@_get_headers granting_runtime (@demo_bot granting_runtime) cached_world)
  = Ok (headers cached_world) /\
  posts (snd (@_get_headers granting_runtime (@demo_bot granting_runtime) cached_world)) = [].
Proof.
  split.
  - reflexivity.
  - destruct (@valid_token_is_reused granting_runtime (@demo_bot granting_runtime) cached_world)
      as (R & P & _).
    + reflexivity.
    + split; [exact R | exact P].
Defined.

(** C6 at work: the first call after the class has been created, when no
    token has been fetched yet. *)
Lemma expired_token_is_refreshed_witness :
  (token_expiration_date (@class_created granting_runtime)
   < @clock granting_runtime (clock_reads (@class_created granting_runtime)))%Z
  /\ posts (snd (@_get_headers granting_runtime (@demo_bot granting_runtime)
            (@class_created granting_runtime)))
     = [@token_request (@demo_bot granting_runtime)]
  /\ token_expiration_date
       (snd (@_get_headers granting_runtime (@demo_bot granting_runtime)
            (@class_created granting_runtime)))
     = (steady_clock 2 + 3600 * usec_per_second)%Z.
Proof.
  split; [reflexivity|].
  destruct (@expired_token_is_refreshed granting_runtime (@demo_bot granting_runtime)
            (@class_created granting_runtime))
    as (P & S & _); [reflexivity|].
  split; [exact P|].
  destruct (S token_granted token_body (VStr "eyJ0eXAi") (VInt 3600) 3600%Z
              (3600 * usec_per_second)%Z
              (steady_clock 2 + 3600 * usec_per_second)%Z)
    as (_ & _ & E); [reflexivity .. | exact E].
Defined.

(** C6 as stated fails: the clock is read a second time after the token
    endpoint has answered, so with a clock that advances the new expiration
    date is not the reading taken at the call plus [expires_in]; and an ok
    response whose [expires_in] is an integer too large for a timedelta
    stores nothing at all: the call raises [OverflowError]. *)
Lemma expiry_is_not_counted_from_the_call :
  let w := @class_created granting_runtime in
  ((token_expiration_date w < steady_clock (clock_reads w))%Z /\
   fst (@_get_headers granting_runtime (@demo_bot granting_runtime) w)
   = Ok (@bearer_headers granting_runtime (VStr "eyJ0eXAi")) /\
   token_expiration_date (snd (@_get_headers granting_runtime (@demo_bot granting_runtime) w))
   <> (steady_clock (clock_reads w) + 3600 * usec_per_second)%Z) /\
  (response_ok token_forever = true /\
   @py_int overflowing_runtime (VInt 86400000000000) = Ok 86400000000000%Z /\
   @_get_headers overflowing_runtime (@demo_bot overflowing_runtime)
     (@class_created overflowing_runtime) =
   (Raise OverflowError,
    mkWorld noon VNone 3 [@token_request (@demo_bot overflowing_runtime)] [])).
Proof.
  cbv zeta. split.
  - split; [reflexivity|]. split; [reflexivity|].
    vm_compute. discriminate.
  - split; [reflexivity|]. split; reflexivity.
Qed.

(** ** Sending *)

Section Sending.

Context {rt : Runtime}.

Lemma activities_app (l1 l2 : list HttpPost) :
  activities (l1 ++ l2) = activities l1 ++ activities l2.
Proof.
  induction l1 as [|[uri payload t|uri h data t] l1 IH]; simpl;
    [reflexivity | exact IH | rewrite IH; reflexivity].
Qed.

(** [_get_headers] issues no activity request. *)
Lemma get_headers_activities (self : BotFramework) (w : World) :
  activities (posts (snd (_get_headers self w))) = activities (posts w).
Proof.
  destruct (Z.ltb_spec (token_expiration_date w) (clock (clock_reads w)))
    as [H|H].
  - rewrite get_headers_expired_posts by exact H.
    rewrite activities_app. simpl. apply app_nil_r.
  - rewrite get_headers_cached by exact H. reflexivity.
Qed.

(** [send], once the conversation id and the headers are there. *)
Lemma send_with_headers (self : BotFramework) (rid : value) (msg : pydict)
    (w w1 : World) (cid h : value) :
  getitem (conversation self) "id" = Ok cid ->
  _get_headers self w = (Ok h, w1) ->
  send self rid msg w =
  match network (posts w1) (activity_request self rid cid h msg) with
  | Ok r => (Ok tt, after_delivery (activity_request self rid cid h msg) r w1)
  | Raise e => (Raise e, record_post (activity_request self rid cid h msg) w1)
  end.
Proof.
  intros C G. unfold send.
  unfold bind at 1, lift at 1. rewrite C.
  unfold bind at 1. rewrite G.
  unfold bind, requests_post. fold (activity_request self rid cid h msg).
  destruct (network (posts w1) (activity_request self rid cid h msg))
    as [r|e]; [|reflexivity].
  unfold after_delivery, logger, ret, record_post.
  destruct (response_ok r); reflexivity.
Qed.

(** A [send] that the network answers returns, and adds exactly one
    activity request. *)
Lemma send_answered (self : BotFramework) (rid : value) (msg : pydict)
    (w : World) (cid : value) :
  getitem (conversation self) "id" = Ok cid ->
  (forall w0, exists h w1, _get_headers self w0 = (Ok h, w1)) ->
  (forall history p, exists r, network history p = Ok r) ->
  fst (send self rid msg w) = Ok tt /\
  activities (posts (snd (send self rid msg w))) =
  activities (posts w) ++
  [(post_message_uri self cid, dict_update (envelope self rid) msg)].
Proof.
  intros C Hh Hn. destruct (Hh w) as (h & w1 & G).
  rewrite (send_with_headers self rid msg w w1 cid h C G).
  destruct (Hn (posts w1) (activity_request self rid cid h msg)) as (r & N).
  rewrite N. split; [reflexivity|].
  cbn [snd after_delivery posts]. rewrite activities_app.
  pose proof (get_headers_activities self w) as F. rewrite G in F.
  cbn [snd] in F. rewrite F. reflexivity.
Qed.

(** A loop of answered [send]s returns and adds one activity request per
    item, in the order of the items. *)
Lemma for_each_send_answered (self : BotFramework) (rid cid : value)
    (fragment : string -> pydict) :
  getitem (conversation self) "id" = Ok cid ->
  (forall w0, exists h w1, _get_headers self w0 = (Ok h, w1)) ->
  (forall history p, exists r, network history p = Ok r) ->
  forall (parts : list string) (w : World),
    fst (for_each parts (fun part => send self rid (fragment part)) w) = Ok tt
    /\ activities
         (posts (snd (for_each parts
                        (fun part => send self rid (fragment part)) w))) =
       activities (posts w) ++
       map (fun part => (post_message_uri self cid,
                         dict_update (envelope self rid) (fragment part)))
           parts.
Proof.
  intros C Hh Hn. induction parts as [|part parts IH]; intro w.
  - cbn. rewrite app_nil_r. split; reflexivity.
  - cbn [for_each map]. unfold bind.
    destruct (send_answered self rid (fragment part) w cid C Hh Hn) as (R & A).
    destruct (send self rid (fragment part) w) as [[[]|e] w'];
      cbn [fst snd] in R, A; [|discriminate].
    destruct (IH w') as (R' & A'). split; [exact R'|].
    rewrite A', A, <- app_assoc. reflexivity.
Qed.

Lemma text_activity_eq (self : BotFramework) (rid : value) (part : string) :
  dict_update (envelope self rid) [("text", VStr part)] =
  text_activity self rid part.
Proof. reflexivity. Qed.

End Sending.

Section SendingClaims.

Context {rt : Runtime}.

Lemma for_each_one {A} (a : A) (body : A -> M unit) (w : World) :
  for_each [a] body w = body a w.
Proof.
  cbn [for_each]. unfold bind, ret.
  destruct (body a w) as [[[]|e] w1]; reflexivity.
Qed.

Lemma for_each_three {A} (a b c : A) (body : A -> M unit) (w : World) :
  for_each [a; b; c] body w = (body a ;; body b ;; body c) w.
Proof.
  cbn [for_each]. unfold bind, ret.
  destruct (body a w) as [[[]|e] w1]; [|reflexivity].
  destruct (body b w1) as [[[]|e] w2]; [|reflexivity].
  destruct (body c w2) as [[[]|e] w3]; reflexivity.
Qed.

Lemma global_uri_init (a p conv b service_url cid : value) :
  post_message_uri (BotFramework_init a p conv b service_url) cid =
  (format_arg service_url ++ "v3/conversations/" ++ format_arg cid
   ++ "/activities")%string.
Proof.
  unfold post_message_uri, BotFramework_init. cbn [global_uri].
  rewrite append_assoc. reflexivity.
Qed.

(** C2, amended.  When the token endpoint answers with a status that is not
    ok (4xx or 5xx), the token cache (expiration date and headers) is left
    unchanged, an error is logged and [_get_headers] returns [None]; the
    subsequent [send] still issues its request, with [headers=None], and
    returns normally as soon as that request gets a response, a response
    with a bad status being logged as an error and nothing more. *)
Theorem refused_token_leaves_cache (self : BotFramework) (rid : value)
    (msg : pydict) (w : World) (resp : Response) (cid : value) :
  (token_expiration_date w < clock (clock_reads w))%Z ->
  network (posts w) (token_request self) = Ok resp ->
  response_ok resp = false ->
  getitem (conversation self) "id" = Ok cid ->
  fst (_get_headers self w) = Ok VNone /\
  token_expiration_date (snd (_get_headers self w)) = token_expiration_date w /\
  headers (snd (_get_headers self w)) = headers w /\
  token_expiration_date (snd (send self rid msg w)) = token_expiration_date w /\
  headers (snd (send self rid msg w)) = headers w /\
  posts (snd (send self rid msg w)) =
  posts w ++ [token_request self; activity_request self rid cid VNone msg] /\
  (forall r,
    network (posts w ++ [token_request self])
            (activity_request self rid cid VNone msg) = Ok r ->
    fst (send self rid msg w) = Ok tt) /\
  log (snd (_get_headers self w)) = log w ++ [token_error_record] /\
  (forall r,
    network (posts w ++ [token_request self])
            (activity_request self rid cid VNone msg) = Ok r ->
    log (snd (send self rid msg w)) =
    log w ++ [token_error_record] ++
    (if response_ok r then [] else [delivery_error_record r])).
Proof.
  intros H N R C.
  pose proof (get_headers_refused self w resp H N R) as G.
  rewrite (send_with_headers self rid msg w _ cid VNone C G), G.
  cbn [fst snd after_refusal posts].
  destruct (network (posts w ++ [token_request self])
              (activity_request self rid cid VNone msg)) as [r0|e] eqn:N0;
    cbn [fst snd after_delivery record_post after_refusal
         token_expiration_date headers posts log];
    rewrite <- app_assoc;
    (split; [reflexivity|]); (split; [reflexivity|]);
    (split; [reflexivity|]); (split; [reflexivity|]);
    (split; [reflexivity|]); (split; [reflexivity|]);
    (split; [|split; [reflexivity|]]).
  - intros r _. reflexivity.
  - intros r N'. injection N' as <-.
    destruct (response_ok r0).
    + rewrite app_nil_r. reflexivity.
    + rewrite <- app_assoc. reflexivity.
  - intros r N'. discriminate N'.
  - intros r N'. discriminate N'.
Qed.

(** C4, amended.  When [send] reaches its request (the conversation has an
    id and the headers were obtained), it posts to the service url followed
    by [v3/conversations/{conversation_id}/activities], the service url
    being taken as received, with no slash added; the JSON document is the
    base envelope (type [message], recipient id, the bot identity as
    [from], the notification alert flag, an empty text) updated with the
    fragment, whose fields override the defaults. *)
Theorem send_posts_merged_envelope (a p conv b service_url : value)
    (rid : value) (fragment : pydict) (w w1 : World) (cid h : value) :
  let self := BotFramework_init a p conv b service_url in
  getitem conv "id" = Ok cid ->
  _get_headers self w = (Ok h, w1) ->
  posts (snd (send self rid fragment w)) =
  posts w1 ++
  [PostJson (format_arg service_url ++ "v3/conversations/" ++ format_arg cid
             ++ "/activities")%string
            h (dict_update (envelope self rid) fragment) 60] /\
  envelope self rid =
  [("type", VStr "message");
   ("recipient", VDict [("id", rid)]);
   ("from", b);
   ("channelData", VDict [("notification", VDict [("alert", VStr "true")])]);
   ("text", VStr "")] /\
  (unique_keys fragment = true ->
   forall k,
     dict_get (dict_update (envelope self rid) fragment) k =
     match dict_get fragment k with
     | Some v => Some v
     | None => dict_get (envelope self rid) k
     end).
Proof.
  intros self C G. split; [|split].
  - rewrite (send_with_headers self rid fragment w w1 cid h C G).
    rewrite <- (global_uri_init a p conv b service_url cid). fold self.
    fold (activity_request self rid cid h fragment).
    destruct (network _ _); reflexivity.
  - reflexivity.
  - intros U k. apply dict_get_update, U.
Qed.

(** C7.  [send_text_message] on the three paragraphs A, B, C is three
    calls of [send], carrying A, B and C, one after the other in this
    order; on [single] it is one call.  When no call raises (the
    conversation has an id, the headers can be obtained, the network
    answers), it returns after exactly three activity requests, which carry
    A, B and C in this order, respectively after exactly one. *)
Theorem paragraphs_are_sent_in_order (self : BotFramework) (rid cid : value) :
  (forall w,
     send_text_message self rid text_A_B_C w =
     (send self rid [("text", VStr "A")] ;;
      send self rid [("text", VStr "B")] ;;
      send self rid [("text", VStr "C")]) w) /\
  (forall w,
     send_text_message self rid text_single w =
     send self rid [("text", VStr "single")] w) /\
  (getitem (conversation self) "id" = Ok cid ->
   (forall w0, exists h w1, _get_headers self w0 = (Ok h, w1)) ->
   (forall history p, exists r, network history p = Ok r) ->
   forall w,
     (fst (send_text_message self rid text_A_B_C w) = Ok tt /\
      activities (posts (snd (send_text_message self rid text_A_B_C w))) =
      activities (posts w) ++
      [(post_message_uri self cid, text_activity self rid "A");
       (post_message_uri self cid, text_activity self rid "B");
       (post_message_uri self cid, text_activity self rid "C")]) /\
     (fst (send_text_message self rid text_single w) = Ok tt /\
      activities (posts (snd (send_text_message self rid text_single w))) =
      activities (posts w) ++
      [(post_message_uri self cid, text_activity self rid "single")])).
Proof.
  split; [|split].
  - intro w.
    exact (for_each_three "A" "B" "C"
             (fun part => send self rid [("text", VStr part)]) w).
  - intro w.
    exact (for_each_one "single"
             (fun part => send self rid [("text", VStr part)]) w).
  - intros C Hh Hn w. unfold send_text_message. split.
    + apply (for_each_send_answered self rid cid
               (fun part => [("text", VStr part)]) C Hh Hn
               (split_paragraphs text_A_B_C) w).
    + apply (for_each_send_answered self rid cid
               (fun part => [("text", VStr part)]) C Hh Hn
               (split_paragraphs text_single) w).
Qed.

(** C8.  A response whose status is not a success makes [send] log an
    error and return normally; in [send_text_message], whatever the
    statuses of the responses, the call returns normally and every
    paragraph gets its request, in order. *)
Theorem failed_delivery_is_local (self : BotFramework) (rid cid : value) :
  getitem (conversation self) "id" = Ok cid ->
  (forall w0, exists h w1, _get_headers self w0 = (Ok h, w1)) ->
  (forall history p, exists r, network history p = Ok r) ->
  (forall msg w h w1 r,
     _get_headers self w = (Ok h, w1) ->
     network (posts w1) (activity_request self rid cid h msg) = Ok r ->
     response_ok r = false ->
     send self rid msg w =
     (Ok tt,
      mkWorld (token_expiration_date w1) (headers w1) (clock_reads w1)
              (posts w1 ++ [activity_request self rid cid h msg])
              (log w1 ++
               [mkLog ERROR
                  "Error trying to send botframework messge. Response: %s"
                  [ArgStr (resp_text r)]]))) /\
  (forall message w,
     fst (send_text_message self rid message w) = Ok tt /\
     activities (posts (snd (send_text_message self rid message w))) =
     activities (posts w) ++
     map (fun part => (post_message_uri self cid, text_activity self rid part))
         (split_paragraphs message)).
Proof.
  intros C Hh Hn. split.
  - intros msg w h w1 r G N F.
    rewrite (send_with_headers self rid msg w w1 cid h C G), N.
    unfold after_delivery. rewrite F. reflexivity.
  - intros message w.
    apply (for_each_send_answered self rid cid
             (fun part => [("text", VStr part)]) C Hh Hn
             (split_paragraphs message) w).
Qed.

(** C9.  [send_custom_message] with a non-empty list sends its first
    element, merged into the envelope by [send]; with an empty list it
    raises [IndexError] before anything else happens, so no request is
    issued. *)
Theorem custom_message_sends_first_element (self : BotFramework)
    (rid : value) :
  (forall w, send_custom_message self rid [] w = (Raise IndexError, w)) /\
  (forall first rest w,
     send_custom_message self rid (first :: rest) w = send self rid first w) /\
  (forall first rest w cid h w1,
     getitem (conversation self) "id" = Ok cid ->
     _get_headers self w = (Ok h, w1) ->
     posts (snd (send_custom_message self rid (first :: rest) w)) =
     posts w1 ++
     [PostJson (post_message_uri self cid) h
               (dict_update (envelope self rid) first) 60]).
Proof.
  split; [|split].
  - reflexivity.
  - reflexivity.
  - intros first rest w cid h w1 C G.
    change (send_custom_message self rid (first :: rest) w)
      with (send self rid first w).
    rewrite (send_with_headers self rid first w w1 cid h C G).
    destruct (network _ _); reflexivity.
Qed.


End SendingClaims.

(** ** The input channel *)

Lemma getitem_raises_Exception (v : value) (k : string) (e : exn) :
  getitem v k = Raise e -> is_Exception e = true.
Proof.
  destruct v; simpl; try (intro H; injection H as <-; reflexivity).
  destruct (dict_get entries k); intro H; [discriminate|].
  injection H as <-. reflexivity.
Qed.

Section Route.

Context {rt : Runtime}.
Variable user_message : Type.
Variable UserMessage :
  value -> BotFramework -> value -> string -> PyResult user_message.
Variable on_new_message : user_message -> M unit.

(** What the [try] block raises is an [Exception], as long as the
    constructor of [UserMessage] and the callback raise nothing else. *)
Lemma handle_event_raises_Exception (self : BotFrameworkInput)
    (postdata : value) (w w' : World) (e : exn) :
  (forall t c s n e0, UserMessage t c s n = Raise e0 -> is_Exception e0 = true) ->
  (forall m w0 e0 w1,
     on_new_message m w0 = (Raise e0, w1) -> is_Exception e0 = true) ->
  handle_event user_message UserMessage on_new_message self postdata w
  = (Raise e, w') ->
  is_Exception e = true.
Proof.
  intros HU HC. unfold handle_event, bind, lift.
  destruct (getitem postdata "type") as [ty|e0] eqn:E0.
  2:{ intro H; injection H as <- _. eapply getitem_raises_Exception, E0. }
  destruct (eq_str ty "message").
  2:{ unfold logger. discriminate. }
  destruct (getitem postdata "conversation") as [cv|e1] eqn:E1.
  2:{ intro H; injection H as <- _. eapply getitem_raises_Exception, E1. }
  destruct (getitem postdata "recipient") as [rc|e2] eqn:E2.
  2:{ intro H; injection H as <- _. eapply getitem_raises_Exception, E2. }
  destruct (getitem postdata "serviceUrl") as [su|e3] eqn:E3.
  2:{ intro H; injection H as <- _. eapply getitem_raises_Exception, E3. }
  destruct (getitem postdata "text") as [tx|e4] eqn:E4.
  2:{ intro H; injection H as <- _. eapply getitem_raises_Exception, E4. }
  destruct (getitem postdata "from") as [fr|e5] eqn:E5.
  2:{ intro H; injection H as <- _. eapply getitem_raises_Exception, E5. }
  destruct (getitem fr "id") as [fid|e6] eqn:E6.
  2:{ intro H; injection H as <- _. eapply getitem_raises_Exception, E6. }
  destruct (UserMessage tx _ fid name) as [um|e7] eqn:E7.
  2:{ intro H; injection H as <- _. eapply HU, E7. }
  intro H. eapply HC, H.
Qed.

(** Once the body has been decoded, the route acknowledges the event
    whatever happens while it is handled. *)
Lemma webhook_acknowledges_decoded_events (self : BotFrameworkInput)
    (request : Request) (postdata : value) (w : World) :
  request_json request = Ok postdata ->
  (forall t c s n e0, UserMessage t c s n = Raise e0 -> is_Exception e0 = true) ->
  (forall m w0 e0 w1,
     on_new_message m w0 = (Raise e0, w1) -> is_Exception e0 = true) ->
  fst (webhook user_message UserMessage on_new_message self request w)
  = Ok (response_text "success").
Proof.
  intros J HU HC. unfold webhook.
  unfold bind at 1, lift at 1. rewrite J.
  unfold bind at 1, try_except.
  destruct (handle_event _ _ _ self postdata w) as [[[]|e] w'] eqn:E.
  - reflexivity.
  - rewrite (handle_event_raises_Exception self postdata w w' e HU HC E).
    reflexivity.
Qed.

(** C1.  The body is decoded before the [try] block is entered: when
    [request.json] raises, as it does for a body that is not JSON, the
    exception leaves the route and no acknowledgment is returned. *)
Theorem webhook_lets_decoding_error_escape (self : BotFrameworkInput)
    (w : World) :
  webhook user_message UserMessage on_new_message self unparsable_request w
  = (Raise (InvalidUsage "Failed when parsing body as json"), w).
Proof. reflexivity. Qed.

End Route.

(** C10.  [from_credentials] raises the missing-credentials exception
    exactly when the credentials are falsy ([None], an empty dict, ...);
    for a non-empty dict it returns an instance whose [app_id] and
    [app_password] are the entries of the dict, [None] standing in for an
    entry that is missing. *)
Theorem from_credentials_needs_credentials :
  (forall credentials,
     from_credentials credentials = Raise (MissingCredentials name) <->
     truthy credentials = false) /\
  (forall entries,
     entries <> [] ->
     from_credentials (VDict entries) =
     Ok (mkBotFrameworkInput
           (match dict_get entries "app_id" with
            | Some v => v
            | None => VNone
            end)
           (match dict_get entries "app_password" with
            | Some v => v
            | None => VNone
            end))).
Proof.
  split.
  - intro credentials. unfold from_credentials.
    destruct (truthy credentials) eqn:T; cbn.
    + split; [|discriminate].
      destruct credentials; cbn; try discriminate.
      destruct (dict_get entries "app_id"), (dict_get entries "app_password");
        discriminate.
    + split; reflexivity.
  - intros entries NE. unfold from_credentials.
    destruct entries as [|kv entries]; [congruence|].
    cbn [truthy negb rbind get_method].
    destruct (dict_get (kv :: entries) "app_id"),
             (dict_get (kv :: entries) "app_password"); reflexivity.
Qed.

(** ** The scenarios at work *)

Lemma scripted_network_answers (t a : Response) (history : list HttpPost)
    (p : HttpPost) :
  exists r, scripted t a history p = Ok r.
Proof. destruct p; eexists; reflexivity. Qed.

Lemma steady_clock_add_hour (k : nat) :
  datetime_add (steady_clock k) (3600 * usec_per_second)%Z =
  Ok (steady_clock k + 3600 * usec_per_second)%Z.
Proof.
  unfold datetime_add.
  replace ((0 <=? steady_clock k + 3600 * usec_per_second)%Z
           && (steady_clock k + 3600 * usec_per_second <? datetime_end)%Z)
    with true; [reflexivity|].
  symmetry. apply andb_true_iff. split.
  - apply Z.leb_le. unfold steady_clock, noon, usec_per_second. lia.
  - apply Z.ltb_lt.
    unfold steady_clock, noon, datetime_end, seconds_per_day, usec_per_second.
    lia.
Qed.

(** With the token endpoint granting tokens, the headers are always
    obtained. *)
Lemma granted_headers_obtained (a : Response) (self : BotFramework)
    (w0 : World) :
  exists h w1,
    @_get_headers
      (mkRuntime no_str_object no_int_of_str steady_clock
                 (scripted token_granted a)) self w0 = (Ok h, w1).
Proof.
  set (rt := mkRuntime no_str_object no_int_of_str steady_clock
                       (scripted token_granted a)).
  destruct (Z.ltb_spec (token_expiration_date w0)
                       (steady_clock (clock_reads w0))) as [H|H].
  - eexists. eexists.
    apply (@get_headers_refreshed rt self w0 token_granted token_body
             (VStr "eyJ0eXAi") (VInt 3600) 3600%Z (3600 * usec_per_second)%Z
             (steady_clock (S (clock_reads w0)) + 3600 * usec_per_second)%Z);
      try reflexivity; [exact H | apply steady_clock_add_hour].
  - eexists. eexists. apply (@get_headers_cached rt). exact H.
Qed.

(** C2 at work: the token endpoint answers 401. *)
Lemma refused_token_leaves_cache_witness :
  let rt := refusing_runtime in
  let bot := @demo_bot rt in
  let w := @class_created rt in
  let msg := [("text", VStr "hi")] in
  (token_expiration_date w < @clock rt (clock_reads w))%Z /\
  @network rt (posts w) (@token_request bot) = Ok token_refused /\
  response_ok token_refused = false /\
  getitem (conversation bot) "id" = Ok (VStr "c1") /\
  token_expiration_date (snd (@send rt bot (VStr "user") msg w))
  = token_expiration_date w /\
  headers (snd (@send rt bot (VStr "user") msg w)) = headers w /\
  fst (@send rt bot (VStr "user") msg w) = Ok tt /\
  log (snd (@send rt bot (VStr "user") msg w)) =
  [token_error_record; delivery_error_record unauthorized].
Proof.
  cbv zeta.
  destruct (@refused_token_leaves_cache refusing_runtime
              (@demo_bot refusing_runtime) (VStr "user") [("text", VStr "hi")]
              (@class_created refusing_runtime) token_refused (VStr "c1"))
    as (_ & _ & _ & E & H & _ & R & _ & L); [reflexivity .. | ].
  split; [reflexivity|]. split; [reflexivity|]. split; [reflexivity|].
  split; [reflexivity|]. split; [exact E|]. split; [exact H|].
  split; [exact (R unauthorized eq_refl) | exact (L unauthorized eq_refl)].
Defined.

(** C2 as stated fails: after the token endpoint has refused, [send] does
    issue its request, with no headers at all; and not every status outside
    2xx leaves the cache alone: a 302 counts as ok, and with a token in its
    body the cache is replaced. *)
Lemma request_goes_out_without_headers :
  let rt := refusing_runtime in
  let bot := @demo_bot rt in
  (response_ok token_refused = false /\
   posts (snd (@send rt bot (VStr "user") [("text", VStr "hi")]
                 (@class_created rt))) =
   [@token_request bot;
    PostJson "https://smba.trafficmanager.net/apis/v3/conversations/c1/activities"
             VNone (@text_activity bot (VStr "user") "hi") 60]) /\
  (status_code token_redirected = 302%Z /\
   headers (@class_created redirecting_runtime) = VNone /\
   headers (snd (@_get_headers redirecting_runtime
                   (@demo_bot redirecting_runtime)
                   (@class_created redirecting_runtime)))
   = @bearer_headers redirecting_runtime (VStr "eyJ0eXAi")).
Proof.
  cbv zeta. split; [split; reflexivity|].
  split; [reflexivity|]. split; reflexivity.
Qed.

(** C4 at work: a text fragment sent with a cached token. *)
Lemma send_posts_merged_envelope_witness :
  let rt := granting_runtime in
  let bot := @demo_bot rt in
  getitem (VDict [("id", VStr "c1")]) "id" = Ok (VStr "c1") /\
  @_get_headers rt bot cached_world
  = (Ok (headers cached_world), tick cached_world) /\
  unique_keys [("text", VStr "hi")] = true /\
  posts (snd (@send rt bot (VStr "user") [("text", VStr "hi")] cached_world)) =
  [PostJson "https://smba.trafficmanager.net/apis/v3/conversations/c1/activities"
            (headers cached_world)
            (dict_update (@envelope bot (VStr "user")) [("text", VStr "hi")])
            60] /\
  dict_get (dict_update (@envelope bot (VStr "user")) [("text", VStr "hi")])
           "text" = Some (VStr "hi").
Proof.
  cbv zeta.
  destruct (@send_posts_merged_envelope granting_runtime
              (VStr "app-id") (VStr "app-secret") (VDict [("id", VStr "c1")])
              (VDict [("id", VStr "bot"); ("name", VStr "Bot")])
              (VStr "https://smba.trafficmanager.net/apis/")
              (VStr "user") [("text", VStr "hi")] cached_world
              (tick cached_world) (VStr "c1") (headers cached_world))
    as (P & _ & O); [reflexivity .. | ].
  split; [reflexivity|]. split; [reflexivity|]. split; [reflexivity|].
  split; [exact P | exact (O eq_refl "text")].
Defined.

(** C4 as stated fails: the address posted to is the service url followed
    directly by [v3/...]; it is not the address the specification spells,
    which has a slash in between. *)
Lemma activity_url_has_no_added_slash :
  let rt := granting_runtime in
  activities
    (posts (snd (@send rt (@demo_bot rt) (VStr "user") [("text", VStr "hi")]
                   cached_world))) =
  [("https://smba.trafficmanager.net/apis/v3/conversations/c1/activities",
    @text_activity (@demo_bot rt) (VStr "user") "hi")] /\
  "https://smba.trafficmanager.net/apis/v3/conversations/c1/activities"
  <> spec_activity_url "https://smba.trafficmanager.net/apis/" "c1".
Proof. cbv zeta. split; [reflexivity | vm_compute; discriminate]. Qed.

(** C7 at work: tokens are granted and every activity is delivered. *)
Lemma paragraphs_are_sent_in_order_witness :
  let rt := granting_runtime in
  let bot := @demo_bot rt in
  let w := @class_created rt in
  let uri :=
    "https://smba.trafficmanager.net/apis/v3/conversations/c1/activities" in
  getitem (conversation bot) "id" = Ok (VStr "c1") /\
  (forall w0, exists h w1, @_get_headers rt bot w0 = (Ok h, w1)) /\
  (forall history p, exists r, @network rt history p = Ok r) /\
  fst (@send_text_message rt bot (VStr "user") text_A_B_C w) = Ok tt /\
  activities (posts (snd (@send_text_message rt bot (VStr "user") text_A_B_C w)))
  = [(uri, @text_activity bot (VStr "user") "A");
     (uri, @text_activity bot (VStr "user") "B");
     (uri, @text_activity bot (VStr "user") "C")] /\
  activities (posts (snd (@send_text_message rt bot (VStr "user") text_single w)))
  = [(uri, @text_activity bot (VStr "user") "single")].
Proof.
  cbv zeta.
  destruct (@paragraphs_are_sent_in_order granting_runtime
              (@demo_bot granting_runtime) (VStr "user") (VStr "c1"))
    as (_ & _ & T).
  pose proof (T eq_refl
                (granted_headers_obtained delivered (@demo_bot granting_runtime))
                (scripted_network_answers token_granted delivered)
                (@class_created granting_runtime)) as ((R3 & A3) & (_ & A1)).
  split; [reflexivity|].
  split; [exact (granted_headers_obtained delivered (@demo_bot granting_runtime))|].
  split; [exact (scripted_network_answers token_granted delivered)|].
  split; [exact R3|]. split; [exact A3 | exact A1].
Defined.

(** C8 at work: every activity request is answered 503. *)
Lemma failed_delivery_is_local_witness :
  let rt := failing_runtime in
  let bot := @demo_bot rt in
  let w := @class_created rt in
  let uri :=
    "https://smba.trafficmanager.net/apis/v3/conversations/c1/activities" in
  getitem (conversation bot) "id" = Ok (VStr "c1") /\
  (forall w0, exists h w1, @_get_headers rt bot w0 = (Ok h, w1)) /\
  (forall history p, exists r, @network rt history p = Ok r) /\
  response_ok unavailable = false /\
  fst (@send_text_message rt bot (VStr "user") text_A_B_C w) = Ok tt /\
  activities (posts (snd (@send_text_message rt bot (VStr "user") text_A_B_C w)))
  = [(uri, @text_activity bot (VStr "user") "A");
     (uri, @text_activity bot (VStr "user") "B");
     (uri, @text_activity bot (VStr "user") "C")].
Proof.
  cbv zeta.
  pose proof (@failed_delivery_is_local failing_runtime
                (@demo_bot failing_runtime) (VStr "user") (VStr "c1")
                eq_refl
                (granted_headers_obtained unavailable (@demo_bot failing_runtime))
                (scripted_network_answers token_granted unavailable))
    as (_ & L).
  destruct (L text_A_B_C (@class_created failing_runtime)) as (R & A).
  split; [reflexivity|].
  split; [exact (granted_headers_obtained unavailable (@demo_bot failing_runtime))|].
  split; [exact (scripted_network_answers token_granted unavailable)|].
  split; [reflexivity|]. split; [exact R | exact A].
Defined.

(** C9 at work: a one-element list, and the empty list. *)
Lemma custom_message_sends_first_element_witness :
  let rt := granting_runtime in
  let bot := @demo_bot rt in
  getitem (conversation bot) "id" = Ok (VStr "c1") /\
  @_get_headers rt bot cached_world
  = (Ok (headers cached_world), tick cached_world) /\
  posts (snd (@send_custom_message rt bot (VStr "user")
                [[("foo", VStr "bar")]] cached_world)) =
  [PostJson "https://smba.trafficmanager.net/apis/v3/conversations/c1/activities"
            (headers cached_world)
            (@envelope bot (VStr "user") ++ [("foo", VStr "bar")]) 60] /\
  @send_custom_message rt bot (VStr "user") [] cached_world
  = (Raise IndexError, cached_world).
Proof.
  cbv zeta.
  destruct (@custom_message_sends_first_element granting_runtime
              (@demo_bot granting_runtime) (VStr "user")) as (E & _ & P).
  split; [reflexivity|]. split; [reflexivity|].
  split; [|exact (E cached_world)].
  exact (P [("foo", VStr "bar")] [] cached_world (VStr "c1")
           (headers cached_world) (tick cached_world) eq_refl eq_refl).
Defined.


(** C10 at work: credentials with an app id only, and no credentials. *)
Lemma from_credentials_needs_credentials_witness :
  [("app_id", VStr "app-id")] <> [] /\
  from_credentials (VDict [("app_id", VStr "app-id")]) =
  Ok (mkBotFrameworkInput (VStr "app-id") VNone) /\
  from_credentials VNone = Raise (MissingCredentials name) /\
  from_credentials (VDict []) = Raise (MissingCredentials name).
Proof.
  destruct from_credentials_needs_credentials as (F & D).
  split; [discriminate|].
  split; [exact (D [("app_id", VStr "app-id")] ltac:(discriminate))|].
  split; [exact (proj2 (F VNone) eq_refl) | exact (proj2 (F (VDict [])) eq_refl)].
Defined.

(** The route at work.  A message event is handed to the pipeline, whose
    answer goes out, and acknowledged. *)
Example webhook_message_event :
  let rt := granting_runtime in
  let r := @webhook rt InternalMessage new_internal_message (@echo rt)
             demo_input (mkRequest (Ok message_event)) (@class_created rt) in
  fst r = Ok (response_text "success") /\
  activities (posts (snd r)) =
  [("https://smba.trafficmanager.net/apis/v3/conversations/c1/activities",
    [("type", VStr "message");
     ("recipient", VDict [("id", VStr "user")]);
     ("from", VDict [("id", VStr "bot"); ("name", VStr "Bot")]);
     ("channelData",
      VDict [("notification", VDict [("alert", VStr "true")])]);
     ("text", VStr "hello")])] /\
  log (snd r) = [].
Proof. cbv zeta. repeat split. Qed.

(** An event without its fields, an empty body, and a failing pipeline are
    acknowledged as well; the failure is logged. *)
Example webhook_missing_fields :
  let rt := granting_runtime in
  @webhook rt InternalMessage new_internal_message (@echo rt) demo_input
    (mkRequest (Ok (VDict [("type", VStr "message")]))) (@class_created rt) =
  (Ok (response_text "success"),
   mkWorld noon VNone 1 []
     [mkLog ERROR "Exception when trying to handle message.{0}"
            [ArgExn (KeyError "conversation")];
      mkLog DEBUG "%s" [ArgExn (KeyError "conversation")]]).
Proof. reflexivity. Qed.

Example webhook_empty_body :
  let rt := granting_runtime in
  fst (@webhook rt InternalMessage new_internal_message (@echo rt) demo_input
         (mkRequest (Ok VNone)) (@class_created rt))
  = Ok (response_text "success").
Proof. reflexivity. Qed.

Example webhook_failing_pipeline :
  let rt := granting_runtime in
  fst (@webhook rt InternalMessage new_internal_message broken_pipeline
         demo_input (mkRequest (Ok message_event)) (@class_created rt))
  = Ok (response_text "success").
Proof. reflexivity. Qed.

(** An event of another type is acknowledged without calling the pipeline
    or sending anything. *)
Example webhook_other_event :
  let rt := granting_runtime in
  @webhook rt InternalMessage new_internal_message broken_pipeline demo_input
    (mkRequest (Ok (VDict [("type", VStr "conversationUpdate")])))
    (@class_created rt) =
  (Ok (response_text "success"),
   mkWorld noon VNone 1 [] [mkLog INFO "Not received message type" []]).
Proof. reflexivity. Qed.

(** * Further properties *)

(** ** The token cache, beyond the claims *)

Section TokenCacheMore.

Context {rt : Runtime}.

Lemma app_one_neq {A} (l : list A) (x : A) : l ++ [x] <> l.
Proof.
  intro H. apply (f_equal (@List.length A)) in H.
  rewrite length_app in H. simpl in H. lia.
Qed.

(** X1.  [_get_headers] goes to the network exactly when the cached
    expiration date is strictly before the clock reading of the call: a
    token that expires at this very instant is still handed out, without
    any request. *)
Theorem request_only_when_strictly_expired (self : BotFramework) (w : World) :
  (posts (snd (_get_headers self w)) = posts w <->
   (clock (clock_reads w) <= token_expiration_date w)%Z) /\
  (clock (clock_reads w) = token_expiration_date w ->
   _get_headers self w = (Ok (headers w), tick w)).
Proof.
  split.
  - split.
    + intro P.
      destruct (Z.ltb_spec (token_expiration_date w) (clock (clock_reads w)))
        as [H|H]; [|exact H].
      rewrite get_headers_expired_posts in P by exact H.
      exfalso. exact (app_one_neq _ _ P).
    + intro H. rewrite get_headers_cached by exact H. reflexivity.
  - intro H. apply get_headers_cached. lia.
Qed.

(** X2.  The two class attributes change together or not at all: after a
    call of [_get_headers] either both are what they were, or the token was
    expired, the call has returned the new headers, these are the ones now
    cached, and the new expiration date is the second clock reading plus
    the number of seconds granted.  In particular a call that raises leaves
    the cache alone. *)
Theorem cache_changes_as_a_whole (self : BotFramework) (w : World) :
  (token_expiration_date (snd (_get_headers self w)) = token_expiration_date w
   /\ headers (snd (_get_headers self w)) = headers w) \/
  (exists tok seconds,
     (token_expiration_date w < clock (clock_reads w))%Z /\
     fst (_get_headers self w) = Ok (bearer_headers tok) /\
     headers (snd (_get_headers self w)) = bearer_headers tok /\
     token_expiration_date (snd (_get_headers self w)) =
     (clock (S (clock_reads w)) + seconds * usec_per_second)%Z).
Proof.
  destruct (Z.ltb_spec (token_expiration_date w) (clock (clock_reads w)))
    as [H|H].
  2:{ left. rewrite get_headers_cached by exact H. split; reflexivity. }
  rewrite get_headers_expired by exact H.
  unfold bind, requests_post, lift, datetime_now, set_token_expiration_date,
    set_headers_attr, get_headers_attr, logger, ret.
  cbn [tick posts].
  destruct (network (posts w) (token_request self)) as [resp|e];
    [|left; split; reflexivity].
  destruct (response_ok resp); [|left; split; reflexivity].
  destruct (resp_json resp) as [data|e]; [|left; split; reflexivity].
  destruct (getitem data "access_token") as [tok|e];
    [|left; split; reflexivity].
  destruct (getitem data "expires_in") as [ttl|e];
    [|left; split; reflexivity].
  cbn [clock_reads].
  destruct (py_int ttl) as [seconds|e]; [|left; split; reflexivity].
  destruct (timedelta_seconds seconds) as [delta|e] eqn:T;
    [|left; split; reflexivity].
  destruct (datetime_add _ delta) as [new_expiry|e] eqn:D;
    [|left; split; reflexivity].
  right. exists tok, seconds.
  unfold record_post, tick in D. cbn [clock_reads] in D.
  apply timedelta_seconds_ok in T. apply datetime_add_ok in D. subst.
  cbn. repeat split. exact H.
Qed.

(** X4.  The cache belongs to the class: once one channel has fetched a
    token, any channel (be it for another conversation or built with other
    credentials) that asks for headers before the new expiration date gets
    the very same headers, and no request is issued. *)
Theorem fetched_token_serves_every_channel (self other : BotFramework)
    (w : World) (resp : Response) (data tok ttl : value) (seconds : Z)
    (delta : timedelta) (new_expiry : datetime) :
  (token_expiration_date w < clock (clock_reads w))%Z ->
  network (posts w) (token_request self) = Ok resp ->
  response_ok resp = true ->
  resp_json resp = Ok data ->
  getitem data "access_token" = Ok tok ->
  getitem data "expires_in" = Ok ttl ->
  py_int ttl = Ok seconds ->
  timedelta_seconds seconds = Ok delta ->
  datetime_add (clock (S (clock_reads w))) delta = Ok new_expiry ->
  (clock (S (S (clock_reads w))) <= new_expiry)%Z ->
  fst (_get_headers other (snd (_get_headers self w)))
  = Ok (bearer_headers tok) /\
  posts (snd (_get_headers other (snd (_get_headers self w))))
  = posts w ++ [token_request self].
Proof.
  intros H N R J A E I T D L.
  rewrite (get_headers_refreshed self w resp data tok ttl seconds delta
             new_expiry H N R J A E I T D).
  cbn [snd]. rewrite get_headers_cached by exact L.
  split; reflexivity.
Qed.

End TokenCacheMore.

(** ** Paragraphs, beyond the claims *)

Lemma has_separator_two (c1 c2 : ascii) (rest : string) :
  has_separator (String c1 (String c2 rest)) =
  (Ascii.eqb c1 nl && Ascii.eqb c2 nl) || has_separator (String c2 rest).
Proof. reflexivity. Qed.

Lemma ends_with_nl_snoc (acc : string) (c : ascii) :
  ends_with_nl (acc ++ String c EmptyString) = Ascii.eqb c nl.
Proof.
  induction acc as [|a acc IH]; [reflexivity|].
  destruct acc as [|b acc]; [reflexivity|].
  exact IH.
Qed.

Lemma has_separator_snoc (acc : string) (c : ascii) :
  has_separator (acc ++ String c EmptyString) =
  has_separator acc || (ends_with_nl acc && Ascii.eqb c nl).
Proof.
  induction acc as [|a acc IH]; [reflexivity|].
  destruct acc as [|b acc].
  - cbn. rewrite orb_false_r. reflexivity.
  - change ((String a (String b acc) ++ String c "")%string)
      with (String a (String b (acc ++ String c ""))%string).
    rewrite !has_separator_two.
    change (String b (acc ++ String c "")%string)
      with ((String b acc ++ String c "")%string).
    rewrite IH.
    change (ends_with_nl (String a (String b acc)))
      with (ends_with_nl (String b acc)).
    rewrite orb_assoc. reflexivity.
Qed.

(** The segment being read never holds a separator, and neither does any
    segment put out. *)
Lemma split_acc_clean (s acc : string) :
  has_separator acc = false ->
  ends_with_nl acc && starts_with_nl s = false ->
  Forall (fun part => has_separator part = false) (split_acc acc s).
Proof.
  revert acc.
  assert (H : forall n s, String.length s <= n ->
                          forall acc,
                            has_separator acc = false ->
                            ends_with_nl acc && starts_with_nl s = false ->
                            Forall (fun part => has_separator part = false)
                                   (split_acc acc s)).
  { induction n as [|n IH]; intros s0 L acc HA HB.
    - destruct s0; [|simpl in L; lia]. constructor; [exact HA | constructor].
    - destruct s0 as [|c1 [|c2 rest]].
      + constructor; [exact HA | constructor].
      + constructor; [|constructor].
        rewrite has_separator_snoc, HA. exact HB.
      + rewrite split_acc_two.
        destruct (Ascii.eqb c1 nl && Ascii.eqb c2 nl) eqn:E.
        * constructor; [exact HA|].
          apply IH; [simpl in L |- *; lia | reflexivity | reflexivity].
        * apply IH.
          -- simpl in L |- *. lia.
          -- rewrite has_separator_snoc, HA. exact HB.
          -- rewrite ends_with_nl_snoc. exact E. }
  intros acc. apply (H (String.length s)). lia.
Qed.

Lemma split_acc_whole (s acc : string) :
  has_separator s = false -> split_acc acc s = [(acc ++ s)%string].
Proof.
  revert acc.
  assert (H : forall n s, String.length s <= n ->
                          has_separator s = false ->
                          forall acc, split_acc acc s = [(acc ++ s)%string]).
  { induction n as [|n IH]; intros s0 L HS acc.
    - destruct s0; [|simpl in L; lia]. rewrite append_empty. reflexivity.
    - destruct s0 as [|c1 [|c2 rest]].
      + rewrite append_empty. reflexivity.
      + reflexivity.
      + rewrite has_separator_two in HS. apply orb_false_iff in HS.
        destruct HS as (E & HS).
        rewrite split_acc_two, E.
        rewrite IH by (simpl in L |- *; lia || exact HS).
        rewrite append_assoc. reflexivity. }
  intros acc HS. apply (H (String.length s)); [lia | exact HS].
Qed.

Lemma split_paragraphs_cons (message : string) :
  exists part parts, split_paragraphs message = part :: parts.
Proof.
  unfold split_paragraphs.
  destruct (split_acc "" message) as [|part parts] eqn:E.
  - exfalso. exact (split_acc_not_nil message "" E).
  - exists part, parts. reflexivity.
Qed.

Lemma paragraphs_hold_no_separator_aux (message : string) :
  Forall (fun part => has_separator part = false) (split_paragraphs message).
Proof. apply split_acc_clean; reflexivity. Qed.

(** X11.  No paragraph [send_text_message] sends contains the separator:
    the text is cut at every blank line, and what is cut out are the
    separators only (joined by them, the paragraphs give the text back). *)
Theorem paragraphs_hold_no_separator (message : string) :
  Forall (fun part => has_separator part = false) (split_paragraphs message)
  /\ join_paragraphs (split_paragraphs message) = message.
Proof.
  split; [apply paragraphs_hold_no_separator_aux | apply split_paragraphs_join].
Qed.

Section ParagraphsMore.

Context {rt : Runtime}.

(** X10.  A message is sent in one piece, as it is, exactly when it holds
    no blank line; this includes the empty message, which is sent as one
    activity with an empty text. *)
Theorem message_without_separator_is_one_send (self : BotFramework)
    (rid : value) (message : string) :
  (split_paragraphs message = [message] <-> has_separator message = false) /\
  (has_separator message = false ->
   forall w,
     send_text_message self rid message w =
     send self rid [("text", VStr message)] w).
Proof.
  split; [split|].
  - intro E. pose proof (paragraphs_hold_no_separator_aux message) as F.
    rewrite E in F. inversion F. assumption.
  - intro HS. unfold split_paragraphs. apply split_acc_whole, HS.
  - intros HS w. unfold send_text_message, split_paragraphs.
    rewrite (split_acc_whole message "" HS).
    exact (for_each_one message
             (fun part => send self rid [("text", VStr part)]) w).
Qed.

End ParagraphsMore.

(** ** Sending, beyond the claims *)

Section SendingMore.

Context {rt : Runtime}.

Lemma send_without_id (self : BotFramework) (rid : value) (msg : pydict)
    (w : World) (e : exn) :
  getitem (conversation self) "id" = Raise e ->
  send self rid msg w = (Raise e, w).
Proof. intro C. unfold send, bind, lift. rewrite C. reflexivity. Qed.

Lemma send_without_headers (self : BotFramework) (rid : value) (msg : pydict)
    (w w1 : World) (cid : value) (e : exn) :
  getitem (conversation self) "id" = Ok cid ->
  _get_headers self w = (Raise e, w1) ->
  send self rid msg w = (Raise e, w1).
Proof.
  intros C G. unfold send. unfold bind at 1, lift at 1. rewrite C.
  unfold bind at 1. rewrite G. reflexivity.
Qed.

Lemma get_headers_posts_cases (self : BotFramework) (w : World) :
  posts (snd (_get_headers self w)) = posts w \/
  posts (snd (_get_headers self w)) = posts w ++ [token_request self].
Proof.
  destruct (Z.ltb_spec (token_expiration_date w) (clock (clock_reads w)))
    as [H|H].
  - right. apply get_headers_expired_posts, H.
  - left. rewrite get_headers_cached by exact H. reflexivity.
Qed.

Lemma for_each_app {A} (xs ys : list A) (body : A -> M unit) (w : World) :
  for_each (xs ++ ys) body w =
  match for_each xs body w with
  | (Ok _, w1) => for_each ys body w1
  | (Raise e, w1) => (Raise e, w1)
  end.
Proof.
  revert w. induction xs as [|x xs IH]; intro w.
  - reflexivity.
  - cbn [app for_each]. unfold bind.
    destruct (body x w) as [[[]|e] w1]; [apply IH | reflexivity].
Qed.

Lemma dict_set_keys (d : pydict) (k : string) (v : value) :
  exists extra, map fst (dict_set d k v) = map fst d ++ extra.
Proof.
  induction d as [|[k0 v0] d (extra & IH)]; simpl.
  - exists [k]. reflexivity.
  - destruct (String.eqb k0 k).
    + exists []. simpl. rewrite app_nil_r. reflexivity.
    + exists extra. simpl. rewrite IH. reflexivity.
Qed.

Lemma dict_update_keys (other d : pydict) :
  exists extra, map fst (dict_update d other) = map fst d ++ extra.
Proof.
  revert d. induction other as [|[k v] other IH]; intro d.
  - exists []. rewrite app_nil_r. reflexivity.
  - rewrite dict_update_cons.
    destruct (IH (dict_set d k v)) as (extra & E).
    destruct (dict_set_keys d k v) as (extra0 & E0).
    exists (extra0 ++ extra). rewrite E, E0, app_assoc. reflexivity.
Qed.

(** X3.  A token response that is ok but whose JSON object lacks
    [access_token] or [expires_in] makes [send] raise a [KeyError] for the
    missing key: the only request issued is the one to the token endpoint,
    no activity goes out and the cache is left as it was. *)
Theorem token_body_without_fields_stops_send (self : BotFramework)
    (rid : value) (msg : pydict) (w : World) (resp : Response) (d : pydict)
    (cid : value) :
  (token_expiration_date w < clock (clock_reads w))%Z ->
  network (posts w) (token_request self) = Ok resp ->
  response_ok resp = true ->
  resp_json resp = Ok (VDict d) ->
  dict_get d "access_token" = None \/ dict_get d "expires_in" = None ->
  getitem (conversation self) "id" = Ok cid ->
  exists k,
    (k = "access_token" \/ k = "expires_in") /\
    send self rid msg w =
    (Raise (KeyError k), record_post (token_request self) (tick w)).
Proof.
  intros H N R J D C.
  assert (G : exists k,
             (k = "access_token" \/ k = "expires_in") /\
             _get_headers self w =
             (Raise (KeyError k), record_post (token_request self) (tick w))).
  { rewrite get_headers_expired by exact H.
    unfold bind at 1, requests_post at 1. cbn [tick posts].
    rewrite N, R. unfold bind, lift. rewrite J. cbn [getitem].
    destruct (dict_get d "access_token") as [tok|] eqn:A.
    - destruct D as [D|D]; [discriminate|]. rewrite D.
      exists "expires_in". split; [right; reflexivity | reflexivity].
    - exists "access_token". split; [left; reflexivity | reflexivity]. }
  destruct G as (k & K & G). exists k. split; [exact K|].
  apply (send_without_headers self rid msg w _ cid _ C G).
Qed.

(** X5.  A channel whose conversation has no [id] (or is no object at all)
    cannot send: every [send_*] method raises the exception of the lookup
    before the clock is read or any request is issued, whatever the
    message. *)
Theorem sending_needs_a_conversation_id (self : BotFramework) (rid : value)
    (e : exn) :
  getitem (conversation self) "id" = Raise e ->
  (forall msg w, send self rid msg w = (Raise e, w)) /\
  (forall message w, send_text_message self rid message w = (Raise e, w)) /\
  (forall url w, send_image_url self rid url w = (Raise e, w)) /\
  (forall message buttons w,
     send_text_with_buttons self rid message buttons w = (Raise e, w)) /\
  (forall first rest w,
     send_custom_message self rid (first :: rest) w = (Raise e, w)).
Proof.
  intro C. repeat split; intros.
  - apply send_without_id, C.
  - unfold send_text_message.
    destruct (split_paragraphs_cons message) as (part & parts & E).
    rewrite E. cbn [for_each]. unfold bind.
    rewrite (send_without_id self rid _ w e C). reflexivity.
  - apply send_without_id, C.
  - apply send_without_id, C.
  - change (send_custom_message self rid (first :: rest) w)
      with (send self rid first w).
    apply send_without_id, C.
Qed.

(** X6.  One call of [send] never issues more than one request of a kind:
    the requests it adds are nothing, the token request alone, its activity
    request alone, or the token request followed by the activity request.
    Nothing is tried again. *)
Theorem send_never_retries (self : BotFramework) (rid : value)
    (msg : pydict) (w : World) :
  exists added,
    posts (snd (send self rid msg w)) = posts w ++ added /\
    (added = [] \/
     added = [token_request self] \/
     (exists cid h, added = [activity_request self rid cid h msg]) \/
     (exists cid h,
        added = [token_request self; activity_request self rid cid h msg])).
Proof.
  destruct (getitem (conversation self) "id") as [cid|e] eqn:C.
  2:{ exists []. rewrite (send_without_id self rid msg w e C).
      rewrite app_nil_r. split; [reflexivity | left; reflexivity]. }
  pose proof (get_headers_posts_cases self w) as P.
  destruct (_get_headers self w) as [[h|e] w1] eqn:G; cbn [snd] in P.
  - rewrite (send_with_headers self rid msg w w1 cid h C G).
    assert (Q : posts (snd match network (posts w1)
                                   (activity_request self rid cid h msg) with
                           | Ok r =>
                               (Ok tt,
                                after_delivery
                                  (activity_request self rid cid h msg) r w1)
                           | Raise e =>
                               (@Raise unit e,
                                record_post
                                  (activity_request self rid cid h msg) w1)
                           end)
                = posts w1 ++ [activity_request self rid cid h msg]).
    { destruct (network _ _); reflexivity. }
    rewrite Q. destruct P as [P|P]; rewrite P.
    + exists [activity_request self rid cid h msg].
      split; [reflexivity|]. right. right. left. exists cid, h. reflexivity.
    + exists [token_request self; activity_request self rid cid h msg].
      split; [rewrite <- app_assoc; reflexivity|].
      right. right. right. exists cid, h. reflexivity.
  - rewrite (send_without_headers self rid msg w w1 cid e C G). cbn [snd].
    destruct P as [P|P]; rewrite P.
    + exists []. rewrite app_nil_r. split; [reflexivity | left; reflexivity].
    + exists [token_request self].
      split; [reflexivity | right; left; reflexivity].
Qed.

Lemma dict_set_In (d : pydict) (k0 : string) (v : value) (k : string) :
  In k (map fst (dict_set d k0 v)) <-> k0 = k \/ In k (map fst d).
Proof.
  induction d as [|[k1 v1] d IH]; simpl.
  - tauto.
  - destruct (String.eqb k1 k0) eqn:E; simpl.
    + apply String.eqb_eq in E. subst k1. tauto.
    + rewrite IH. tauto.
Qed.

Lemma dict_update_In (other d : pydict) (k : string) :
  In k (map fst (dict_update d other)) <->
  In k (map fst d) \/ In k (map fst other).
Proof.
  revert d. induction other as [|[k0 v0] other IH]; intro d.
  - simpl. tauto.
  - rewrite dict_update_cons, IH, dict_set_In. simpl. tauto.
Qed.

(** X7.  Whatever the fragment, the keys of the document [send] posts are
    the five keys of the envelope together with the keys of the fragment,
    no more and no less.  A fragment can replace a default, it cannot
    remove one. *)
Theorem envelope_keys_stay (self : BotFramework) (rid : value)
    (fragment : pydict) (k : string) :
  In k (map fst (dict_update (envelope self rid) fragment)) <->
  In k ["type"; "recipient"; "from"; "channelData"; "text"] \/
  In k (map fst fragment).
Proof. apply dict_update_In. Qed.

(** X8.  [send_image_url] posts the envelope, all defaults untouched (the
    text stays empty), followed by one attachment, a hero card whose only
    image is the url. *)
Theorem image_goes_out_as_hero_card (self : BotFramework) (rid url : value)
    (w w1 : World) (cid h : value) :
  getitem (conversation self) "id" = Ok cid ->
  _get_headers self w = (Ok h, w1) ->
  posts (snd (send_image_url self rid url w)) =
  posts w1 ++
  [PostJson (post_message_uri self cid) h
            (envelope self rid ++ [("attachments", VList [image_card url])])
            60].
Proof.
  intros C G. unfold send_image_url.
  rewrite (send_with_headers self rid _ w w1 cid h C G).
  destruct (network _ _); reflexivity.
Qed.

(** X9.  [send_text_with_buttons] posts the envelope, all defaults
    untouched, followed by one attachment, a hero card with the message as
    its subtitle and the buttons as they were given: the message does not
    become the text of the activity, which stays empty. *)
Theorem buttons_go_out_as_hero_card (self : BotFramework)
    (rid message buttons : value) (w w1 : World) (cid h : value) :
  getitem (conversation self) "id" = Ok cid ->
  _get_headers self w = (Ok h, w1) ->
  posts (snd (send_text_with_buttons self rid message buttons w)) =
  posts w1 ++
  [PostJson (post_message_uri self cid) h
            (envelope self rid ++
             [("attachments", VList [buttons_card message buttons])])
            60] /\
  dict_get (envelope self rid ++
            [("attachments", VList [buttons_card message buttons])]) "text"
  = Some (VStr "").
Proof.
  intros C G. split; [|reflexivity]. unfold send_text_with_buttons.
  rewrite (send_with_headers self rid _ w w1 cid h C G).
  destruct (network _ _); reflexivity.
Qed.

(** X17.  With a token that has not expired, [send] is exactly one
    request, the activity, carrying the cached headers; once it is
    answered [send] returns, and the cache is what it was. *)
Theorem send_with_cached_token_is_one_request (self : BotFramework)
    (rid : value) (msg : pydict) (w : World) (cid : value) (r : Response) :
  (clock (clock_reads w) <= token_expiration_date w)%Z ->
  getitem (conversation self) "id" = Ok cid ->
  network (posts w) (activity_request self rid cid (headers w) msg) = Ok r ->
  fst (send self rid msg w) = Ok tt /\
  posts (snd (send self rid msg w)) =
  posts w ++ [activity_request self rid cid (headers w) msg] /\
  headers (snd (send self rid msg w)) = headers w /\
  token_expiration_date (snd (send self rid msg w)) = token_expiration_date w.
Proof.
  intros H C N.
  rewrite (send_with_headers self rid msg w (tick w) cid (headers w) C
             (get_headers_cached self w H)).
  cbn [tick posts]. rewrite N. repeat split.
Qed.

(** X18.  An exception, unlike a bad status, ends the message: when the
    [send] of one paragraph raises, [send_text_message] raises the same
    exception at once and the paragraphs after it are not sent. *)
Theorem raising_send_ends_the_message (self : BotFramework) (rid : value)
    (message : string) (before : list string) (part : string)
    (after : list string) (w w1 w' : World) (e : exn) :
  split_paragraphs message = before ++ part :: after ->
  for_each before (fun p => send self rid [("text", VStr p)]) w = (Ok tt, w1) ->
  send self rid [("text", VStr part)] w1 = (Raise e, w') ->
  send_text_message self rid message w = (Raise e, w').
Proof.
  intros S B F. unfold send_text_message. rewrite S, for_each_app, B.
  cbn [for_each]. unfold bind. rewrite F. reflexivity.
Qed.

End SendingMore.

(** ** The input channel, beyond the claims *)

Lemma event_fields_raises_Exception (postdata : value) (e : exn) :
  event_fields postdata = Raise e -> is_Exception e = true.
Proof.
  unfold event_fields, rbind.
  destruct (getitem postdata "conversation") eqn:E1;
    [|intro H; injection H as <-; eapply getitem_raises_Exception, E1].
  destruct (getitem postdata "recipient") eqn:E2;
    [|intro H; injection H as <-; eapply getitem_raises_Exception, E2].
  destruct (getitem postdata "serviceUrl") eqn:E3;
    [|intro H; injection H as <-; eapply getitem_raises_Exception, E3].
  destruct (getitem postdata "text") eqn:E4;
    [|intro H; injection H as <-; eapply getitem_raises_Exception, E4].
  destruct (getitem postdata "from") as [sender|] eqn:E5;
    [|intro H; injection H as <-; eapply getitem_raises_Exception, E5].
  destruct (getitem sender "id") eqn:E6;
    [discriminate
    |intro H; injection H as <-; eapply getitem_raises_Exception, E6].
Qed.

Section RouteMore.

Context {rt : Runtime}.
Variable user_message : Type.
Variable UserMessage :
  value -> BotFramework -> value -> string -> PyResult user_message.
Variable on_new_message : user_message -> M unit.

(** The route, once the body has been decoded, in terms of what the [try]
    block does. *)
Lemma webhook_decoded (self : BotFrameworkInput) (request : Request)
    (postdata : value) (w : World) :
  request_json request = Ok postdata ->
  webhook user_message UserMessage on_new_message self request w =
  match handle_event user_message UserMessage on_new_message self postdata w
  with
  | (Ok _, w') => (Ok (response_text "success"), w')
  | (Raise e, w') =>
      if is_Exception e
      then (Ok (response_text "success"), with_log w' (caught_records e))
      else (Raise e, w')
  end.
Proof.
  intro J. unfold webhook.
  unfold bind at 1, lift at 1. rewrite J.
  unfold bind at 1, try_except.
  destruct (handle_event _ _ _ self postdata w) as [[[]|e] w'].
  - reflexivity.
  - destruct (is_Exception e); [|reflexivity].
    unfold bind, logger, ret, with_log, caught_records. cbn.
    rewrite <- app_assoc. reflexivity.
Qed.

(** The [try] block on an event that fails one of its lookups. *)
Lemma handle_event_incomplete (self : BotFrameworkInput) (postdata : value)
    (w : World) (e : exn) :
  getitem postdata "type" = Raise e \/
  (exists ty, getitem postdata "type" = Ok ty /\
              eq_str ty "message" = true /\
              event_fields postdata = Raise e) ->
  handle_event user_message UserMessage on_new_message self postdata w
  = (Raise e, w).
Proof.
  intros [T|(ty & T & M & F)]; unfold handle_event, bind, lift; rewrite T.
  - reflexivity.
  - rewrite M. revert F. unfold event_fields, rbind.
    destruct (getitem postdata "conversation");
      [|intro H; injection H as <-; reflexivity].
    destruct (getitem postdata "recipient");
      [|intro H; injection H as <-; reflexivity].
    destruct (getitem postdata "serviceUrl");
      [|intro H; injection H as <-; reflexivity].
    destruct (getitem postdata "text");
      [|intro H; injection H as <-; reflexivity].
    destruct (getitem postdata "from") as [sender|];
      [|intro H; injection H as <-; reflexivity].
    destruct (getitem sender "id");
      [discriminate | intro H; injection H as <-; reflexivity].
Qed.

(** The [try] block on a message event that has all its fields. *)
Lemma handle_event_complete (self : BotFrameworkInput) (postdata ty : value)
    (conv rec su txt sid : value) (um : user_message) (w : World) :
  getitem postdata "type" = Ok ty ->
  eq_str ty "message" = true ->
  event_fields postdata = Ok (conv, rec, su, txt, sid) ->
  UserMessage txt
              (BotFramework_init (in_app_id self) (in_app_password self)
                                 conv rec su)
              sid name = Ok um ->
  handle_event user_message UserMessage on_new_message self postdata w
  = on_new_message um w.
Proof.
  intros T M F U. unfold handle_event, bind, lift. rewrite T, M.
  revert F. unfold event_fields, rbind.
  destruct (getitem postdata "conversation"); [|discriminate].
  destruct (getitem postdata "recipient"); [|discriminate].
  destruct (getitem postdata "serviceUrl"); [|discriminate].
  destruct (getitem postdata "text"); [|discriminate].
  destruct (getitem postdata "from") as [sender|]; [|discriminate].
  destruct (getitem sender "id"); [|discriminate].
  intro H. injection H as -> -> -> -> ->. rewrite U.
  destruct (on_new_message um w) as [[[]|e] w']; reflexivity.
Qed.

(** X12.  An event whose type is not [message] is acknowledged and
    nothing else happens but one informational log record: the pipeline is
    not called, whatever it is, and no request is issued. *)
Theorem other_events_are_skipped (self : BotFrameworkInput)
    (request : Request) (postdata ty : value) (w : World) :
  request_json request = Ok postdata ->
  getitem postdata "type" = Ok ty ->
  eq_str ty "message" = false ->
  webhook user_message UserMessage on_new_message self request w =
  (Ok (response_text "success"),
   with_log w [mkLog INFO "Not received message type" []]).
Proof.
  intros J T M. rewrite (webhook_decoded self request postdata w J).
  unfold handle_event, bind, lift. rewrite T, M. reflexivity.
Qed.

(** X13.  A decoded event that has no [type], or is a message lacking one
    of [conversation], [recipient], [serviceUrl], [text], [from] and
    [from.id], is acknowledged all the same; the exception of the first
    lookup that fails is logged, once as an error and once for debugging,
    the pipeline is not called and no request is issued. *)
Theorem incomplete_event_is_logged_and_acknowledged
    (self : BotFrameworkInput) (request : Request) (postdata : value)
    (w : World) (e : exn) :
  request_json request = Ok postdata ->
  getitem postdata "type" = Raise e \/
  (exists ty, getitem postdata "type" = Ok ty /\
              eq_str ty "message" = true /\
              event_fields postdata = Raise e) ->
  webhook user_message UserMessage on_new_message self request w =
  (Ok (response_text "success"), with_log w (caught_records e)).
Proof.
  intros J F. rewrite (webhook_decoded self request postdata w J).
  rewrite (handle_event_incomplete self postdata w e F).
  replace (is_Exception e) with true; [reflexivity|].
  symmetry. destruct F as [T|(ty & _ & _ & F)].
  - eapply getitem_raises_Exception, T.
  - eapply event_fields_raises_Exception, F.
Qed.

(** X15.  For a message event with all its fields the pipeline is called
    once, with the message built from the text, the sender id, the name of
    the channel and a reply channel made of the credentials of the input
    channel and the conversation, recipient and service url of the event;
    the route answers only after the pipeline has returned.  An
    [Exception] of the pipeline is logged and the event acknowledged. *)
Theorem message_event_reaches_the_pipeline (self : BotFrameworkInput)
    (request : Request) (postdata ty : value) (conv rec su txt sid : value)
    (um : user_message) (w : World) :
  request_json request = Ok postdata ->
  getitem postdata "type" = Ok ty ->
  eq_str ty "message" = true ->
  event_fields postdata = Ok (conv, rec, su, txt, sid) ->
  UserMessage txt
              (BotFramework_init (in_app_id self) (in_app_password self)
                                 conv rec su)
              sid name = Ok um ->
  (forall w',
     on_new_message um w = (Ok tt, w') ->
     webhook user_message UserMessage on_new_message self request w =
     (Ok (response_text "success"), w')) /\
  (forall e w',
     on_new_message um w = (Raise e, w') ->
     is_Exception e = true ->
     webhook user_message UserMessage on_new_message self request w =
     (Ok (response_text "success"), with_log w' (caught_records e))).
Proof.
  intros J T M F U.
  rewrite (webhook_decoded self request postdata w J).
  rewrite (handle_event_complete self postdata ty conv rec su txt sid um w
             T M F U).
  split.
  - intros w' C. rewrite C. reflexivity.
  - intros e w' C E. rewrite C, E. reflexivity.
Qed.

(** X14.  The handler of the route is for [Exception] only: what the
    pipeline raises outside that class (a cancellation, an interrupt)
    leaves the route, unlogged and unacknowledged. *)
Theorem base_exception_leaves_the_route (self : BotFrameworkInput)
    (request : Request) (postdata ty : value) (conv rec su txt sid : value)
    (um : user_message) (w w' : World) (e : exn) :
  request_json request = Ok postdata ->
  getitem postdata "type" = Ok ty ->
  eq_str ty "message" = true ->
  event_fields postdata = Ok (conv, rec, su, txt, sid) ->
  UserMessage txt
              (BotFramework_init (in_app_id self) (in_app_password self)
                                 conv rec su)
              sid name = Ok um ->
  on_new_message um w = (Raise e, w') ->
  is_Exception e = false ->
  webhook user_message UserMessage on_new_message self request w
  = (Raise e, w').
Proof.
  intros J T M F U C E.
  rewrite (webhook_decoded self request postdata w J).
  rewrite (handle_event_complete self postdata ty conv rec su txt sid um w
             T M F U).
  rewrite C, E. reflexivity.
Qed.

End RouteMore.

(** X16.  Credentials that are truthy but no dict (a string, a number, a
    list) pass the check for missing credentials and fail at the first
    [.get]: [from_credentials] raises [AttributeError]. *)
Theorem credentials_must_be_a_dict (credentials : value) :
  truthy credentials = true ->
  (forall entries, credentials <> VDict entries) ->
  from_credentials credentials = Raise (AttributeError "get").
Proof.
  intros T N. unfold from_credentials. rewrite T. cbn [negb rbind].
  destruct credentials; try reflexivity.
  exfalso. exact (N entries eq_refl).
Qed.

(** ** The further properties at work *)

(** X1 at work: the token expires at the instant of the call. *)
Lemma request_only_when_strictly_expired_witness :
  @clock granting_runtime (clock_reads expiring_world)
  = token_expiration_date expiring_world /\
  @_get_headers granting_runtime (@demo_bot granting_runtime) expiring_world
  = (Ok (headers expiring_world), tick expiring_world) /\
  posts (snd (@_get_headers granting_runtime (@demo_bot granting_runtime)
                expiring_world)) = posts expiring_world.
Proof.
  destruct (@request_only_when_strictly_expired granting_runtime
              (@demo_bot granting_runtime) expiring_world) as (I & E).
  split; [reflexivity|].
  split; [exact (E eq_refl)|].
  apply (proj2 I). discriminate.
Defined.

(** X3 at work: the token endpoint answers 200 without a token. *)
Lemma token_body_without_fields_stops_send_witness :
  (token_expiration_date (@class_created malformed_runtime)
   < @clock malformed_runtime (clock_reads (@class_created malformed_runtime)))%Z
  /\ response_ok token_without_token = true
  /\ dict_get [("expires_in", VInt 3600)] "access_token" = None
  /\ exists k,
       (k = "access_token" \/ k = "expires_in") /\
       @send malformed_runtime (@demo_bot malformed_runtime) (VStr "user")
             [("text", VStr "hi")] (@class_created malformed_runtime) =
       (Raise (KeyError k),
        record_post (@token_request (@demo_bot malformed_runtime))
                    (tick (@class_created malformed_runtime))).
Proof.
  split; [reflexivity|]. split; [reflexivity|]. split; [reflexivity|].
  exact (@token_body_without_fields_stops_send malformed_runtime
           (@demo_bot malformed_runtime) (VStr "user") [("text", VStr "hi")]
           (@class_created malformed_runtime) token_without_token
           [("expires_in", VInt 3600)] (VStr "c1")
           eq_refl eq_refl eq_refl eq_refl (or_introl eq_refl) eq_refl).
Defined.

(** X4 at work: a channel of another application, in another conversation,
    asks for headers right after the first one has fetched a token. *)
Lemma fetched_token_serves_every_channel_witness :
  (token_expiration_date (@class_created granting_runtime)
   < @clock granting_runtime (clock_reads (@class_created granting_runtime)))%Z
  /\ (@clock granting_runtime 3 <= steady_clock 2 + 3600 * usec_per_second)%Z
  /\ fst (@_get_headers granting_runtime (@other_bot granting_runtime)
            (snd (@_get_headers granting_runtime (@demo_bot granting_runtime)
                    (@class_created granting_runtime))))
     = Ok (@bearer_headers granting_runtime (VStr "eyJ0eXAi"))
  /\ posts (snd (@_get_headers granting_runtime (@other_bot granting_runtime)
                   (snd (@_get_headers granting_runtime
                           (@demo_bot granting_runtime)
                           (@class_created granting_runtime)))))
     = [@token_request (@demo_bot granting_runtime)].
Proof.
  split; [reflexivity|]. split; [discriminate|].
  exact (@fetched_token_serves_every_channel granting_runtime
           (@demo_bot granting_runtime) (@other_bot granting_runtime)
           (@class_created granting_runtime) token_granted token_body
           (VStr "eyJ0eXAi") (VInt 3600) 3600%Z (3600 * usec_per_second)%Z
           (steady_clock 2 + 3600 * usec_per_second)%Z
           eq_refl eq_refl eq_refl eq_refl eq_refl eq_refl eq_refl eq_refl
           eq_refl ltac:(discriminate)).
Defined.

(** X5 at work: a conversation without id. *)
Lemma sending_needs_a_conversation_id_witness :
  getitem (conversation (@lost_bot granting_runtime)) "id"
  = Raise (KeyError "id") /\
  @send_text_message granting_runtime (@lost_bot granting_runtime)
    (VStr "user") text_A_B_C cached_world
  = (Raise (KeyError "id"), cached_world) /\
  @send_image_url granting_runtime (@lost_bot granting_runtime)
    (VStr "user") (VStr "https://example.org/cat.png") cached_world
  = (Raise (KeyError "id"), cached_world).
Proof.
  destruct (@sending_needs_a_conversation_id granting_runtime
              (@lost_bot granting_runtime) (VStr "user") (KeyError "id")
              eq_refl) as (_ & T & I & _).
  split; [reflexivity|].
  split; [exact (T text_A_B_C cached_world)|].
  exact (I (VStr "https://example.org/cat.png") cached_world).
Defined.

(** X8 at work. *)
Lemma image_goes_out_as_hero_card_witness :
  getitem (conversation (@demo_bot granting_runtime)) "id" = Ok (VStr "c1") /\
  @_get_headers granting_runtime (@demo_bot granting_runtime) cached_world
  = (Ok (headers cached_world), tick cached_world) /\
  posts (snd (@send_image_url granting_runtime (@demo_bot granting_runtime)
                (VStr "user") (VStr "https://example.org/cat.png")
                cached_world)) =
  [PostJson "https://smba.trafficmanager.net/apis/v3/conversations/c1/activities"
            (headers cached_world)
            (@envelope (@demo_bot granting_runtime) (VStr "user") ++
             [("attachments",
               VList [image_card (VStr "https://example.org/cat.png")])])
            60].
Proof.
  split; [reflexivity|]. split; [reflexivity|].
  exact (@image_goes_out_as_hero_card granting_runtime
           (@demo_bot granting_runtime) (VStr "user")
           (VStr "https://example.org/cat.png") cached_world
           (tick cached_world) (VStr "c1") (headers cached_world)
           eq_refl eq_refl).
Defined.

(** X9 at work. *)
Lemma buttons_go_out_as_hero_card_witness :
  getitem (conversation (@demo_bot granting_runtime)) "id" = Ok (VStr "c1") /\
  @_get_headers granting_runtime (@demo_bot granting_runtime) cached_world
  = (Ok (headers cached_world), tick cached_world) /\
  posts (snd (@send_text_with_buttons granting_runtime
                (@demo_bot granting_runtime) (VStr "user") (VStr "Yes or no?")
                (VList [VDict [("title", VStr "yes")]]) cached_world)) =
  [PostJson "https://smba.trafficmanager.net/apis/v3/conversations/c1/activities"
            (headers cached_world)
            (@envelope (@demo_bot granting_runtime) (VStr "user") ++
             [("attachments",
               VList [buttons_card (VStr "Yes or no?")
                                   (VList [VDict [("title", VStr "yes")]])])])
            60].
Proof.
  split; [reflexivity|]. split; [reflexivity|].
  exact (proj1 (@buttons_go_out_as_hero_card granting_runtime
                  (@demo_bot granting_runtime) (VStr "user")
                  (VStr "Yes or no?") (VList [VDict [("title", VStr "yes")]])
                  cached_world (tick cached_world) (VStr "c1")
                  (headers cached_world) eq_refl eq_refl)).
Defined.

(** X10 at work: a message of one paragraph, and the empty message. *)
Lemma message_without_separator_is_one_send_witness :
  has_separator text_single = false /\
  has_separator EmptyString = false /\
  split_paragraphs text_single = [text_single] /\
  @send_text_message granting_runtime (@demo_bot granting_runtime)
    (VStr "user") EmptyString cached_world =
  @send granting_runtime (@demo_bot granting_runtime) (VStr "user")
    [("text", VStr EmptyString)] cached_world.
Proof.
  split; [reflexivity|]. split; [reflexivity|].
  split.
  - exact (proj2 (proj1 (@message_without_separator_is_one_send
                           granting_runtime (@demo_bot granting_runtime)
                           (VStr "user") text_single)) eq_refl).
  - exact (proj2 (@message_without_separator_is_one_send
                    granting_runtime (@demo_bot granting_runtime)
                    (VStr "user") EmptyString) eq_refl cached_world).
Defined.

(** X12 at work: a conversation update, with a pipeline that would fail. *)
Lemma other_events_are_skipped_witness :
  getitem update_event "type" = Ok (VStr "conversationUpdate") /\
  eq_str (VStr "conversationUpdate") "message" = false /\
  @webhook granting_runtime InternalMessage new_internal_message
    broken_pipeline demo_input (mkRequest (Ok update_event)) cached_world =
  (Ok (response_text "success"),
   with_log cached_world [mkLog INFO "Not received message type" []]).
Proof.
  split; [reflexivity|]. split; [reflexivity|].
  exact (@other_events_are_skipped granting_runtime InternalMessage
           new_internal_message broken_pipeline demo_input
           (mkRequest (Ok update_event)) update_event
           (VStr "conversationUpdate") cached_world eq_refl eq_refl eq_refl).
Defined.

(** X13 at work: a message event that has nothing but its type. *)
Lemma incomplete_event_is_logged_and_acknowledged_witness :
  event_fields bare_message_event = Raise (KeyError "conversation") /\
  @webhook granting_runtime InternalMessage new_internal_message
    (@echo granting_runtime) demo_input (mkRequest (Ok bare_message_event))
    cached_world =
  (Ok (response_text "success"),
   with_log cached_world (caught_records (KeyError "conversation"))).
Proof.
  split; [reflexivity|].
  apply (@incomplete_event_is_logged_and_acknowledged granting_runtime
           InternalMessage new_internal_message (@echo granting_runtime)
           demo_input (mkRequest (Ok bare_message_event)) bare_message_event
           cached_world (KeyError "conversation") eq_refl).
  right. exists (VStr "message").
  split; [reflexivity|]. split; reflexivity.
Defined.

(** X14 at work: the pipeline is cancelled. *)
Lemma base_exception_leaves_the_route_witness :
  event_fields message_event =
  Ok (VDict [("id", VStr "c1")],
      VDict [("id", VStr "bot"); ("name", VStr "Bot")],
      VStr "https://smba.trafficmanager.net/apis/",
      VStr "hello", VStr "user") /\
  is_Exception (BaseOnly "CancelledError") = false /\
  @webhook granting_runtime InternalMessage new_internal_message
    cancelled_pipeline demo_input (mkRequest (Ok message_event)) cached_world
  = (Raise (BaseOnly "CancelledError"), cached_world).
Proof.
  split; [reflexivity|]. split; [reflexivity|].
  exact (@base_exception_leaves_the_route granting_runtime InternalMessage
           new_internal_message cancelled_pipeline demo_input
           (mkRequest (Ok message_event)) message_event (VStr "message")
           (VDict [("id", VStr "c1")])
           (VDict [("id", VStr "bot"); ("name", VStr "Bot")])
           (VStr "https://smba.trafficmanager.net/apis/")
           (VStr "hello") (VStr "user")
           (mkInternalMessage (VStr "hello") (@demo_bot granting_runtime)
                              (VStr "user") name)
           cached_world cached_world (BaseOnly "CancelledError")
           eq_refl eq_refl eq_refl eq_refl eq_refl eq_refl eq_refl).
Defined.

(** X15 at work: the pipeline echoes the message; the answer has gone out
    when the route acknowledges the event. *)
Lemma message_event_reaches_the_pipeline_witness :
  @echo granting_runtime
    (mkInternalMessage (VStr "hello") (@demo_bot granting_runtime)
                       (VStr "user") name) cached_world
  = (Ok tt,
     after_delivery
       (PostJson
          "https://smba.trafficmanager.net/apis/v3/conversations/c1/activities"
          (headers cached_world)
          (@text_activity (@demo_bot granting_runtime) (VStr "user") "hello")
          60)
       delivered (tick cached_world)) /\
  @webhook granting_runtime InternalMessage new_internal_message
    (@echo granting_runtime) demo_input (mkRequest (Ok message_event))
    cached_world
  = (Ok (response_text "success"),
     after_delivery
       (PostJson
          "https://smba.trafficmanager.net/apis/v3/conversations/c1/activities"
          (headers cached_world)
          (@text_activity (@demo_bot granting_runtime) (VStr "user") "hello")
          60)
       delivered (tick cached_world)).
Proof.
  split; [reflexivity|].
  exact (proj1
           (@message_event_reaches_the_pipeline granting_runtime
              InternalMessage new_internal_message (@echo granting_runtime)
              demo_input (mkRequest (Ok message_event)) message_event
              (VStr "message") (VDict [("id", VStr "c1")])
              (VDict [("id", VStr "bot"); ("name", VStr "Bot")])
              (VStr "https://smba.trafficmanager.net/apis/")
              (VStr "hello") (VStr "user")
              (mkInternalMessage (VStr "hello") (@demo_bot granting_runtime)
                                 (VStr "user") name)
              cached_world eq_refl eq_refl eq_refl eq_refl eq_refl)
           _ eq_refl).
Defined.

(** X16 at work: the credentials are a string. *)
Lemma credentials_must_be_a_dict_witness :
  truthy (VStr "app-id") = true /\
  (forall entries, VStr "app-id" <> VDict entries) /\
  from_credentials (VStr "app-id") = Raise (AttributeError "get").
Proof.
  split; [reflexivity|]. split; [discriminate|].
  exact (credentials_must_be_a_dict (VStr "app-id") eq_refl
           ltac:(discriminate)).
Defined.

(** X17 at work. *)
Lemma send_with_cached_token_is_one_request_witness :
  (@clock granting_runtime (clock_reads cached_world)
   <= token_expiration_date cached_world)%Z /\
  fst (@send granting_runtime (@demo_bot granting_runtime) (VStr "user")
         [("text", VStr "hi")] cached_world) = Ok tt /\
  posts (snd (@send granting_runtime (@demo_bot granting_runtime) (VStr "user")
                [("text", VStr "hi")] cached_world)) =
  [PostJson "https://smba.trafficmanager.net/apis/v3/conversations/c1/activities"
            (headers cached_world)
            (@text_activity (@demo_bot granting_runtime) (VStr "user") "hi")
            60].
Proof.
  split; [discriminate|].
  destruct (@send_with_cached_token_is_one_request granting_runtime
              (@demo_bot granting_runtime) (VStr "user") [("text", VStr "hi")]
              cached_world (VStr "c1") delivered
              ltac:(discriminate) eq_refl eq_refl) as (R & P & _).
  split; [exact R | exact P].
Defined.

(** X18 at work: the network is down when the first of three paragraphs
    is sent. *)
Lemma raising_send_ends_the_message_witness :
  split_paragraphs text_A_B_C = [] ++ "A" :: ["B"; "C"] /\
  @send_text_message offline_runtime (@demo_bot offline_runtime) (VStr "user")
    text_A_B_C cached_world =
  (Raise (OtherException "ConnectionError"),
   record_post
     (PostJson
        "https://smba.trafficmanager.net/apis/v3/conversations/c1/activities"
        (headers cached_world)
        (@text_activity (@demo_bot offline_runtime) (VStr "user") "A") 60)
     (tick cached_world)).
Proof.
  split; [reflexivity|].
  exact (@raising_send_ends_the_message offline_runtime
           (@demo_bot offline_runtime) (VStr "user") text_A_B_C
           [] "A" ["B"; "C"] cached_world cached_world _
           (OtherException "ConnectionError") eq_refl eq_refl eq_refl).
Defined.

(** X7 at work: a fragment that brings a text and an attachment. *)
Lemma envelope_keys_stay_witness :
  In "attachments"
     (map fst [("text", VStr "hi"); ("attachments", VList [])]) /\
  In "attachments"
     (map fst (dict_update (@envelope (@demo_bot granting_runtime) (VStr "user"))
                           [("text", VStr "hi"); ("attachments", VList [])]))
  /\ In "channelData"
     (map fst (dict_update (@envelope (@demo_bot granting_runtime) (VStr "user"))
                           [("text", VStr "hi"); ("attachments", VList [])])).
Proof.
  split; [right; left; reflexivity|]. split.
  - apply (proj2 (envelope_keys_stay
                    (@demo_bot granting_runtime) (VStr "user")
                    [("text", VStr "hi"); ("attachments", VList [])]
                    "attachments")).
    right. right. left. reflexivity.
  - apply (proj2 (envelope_keys_stay
                    (@demo_bot granting_runtime) (VStr "user")
                    [("text", VStr "hi"); ("attachments", VList [])]
                    "channelData")).
    left. right. right. right. left. reflexivity.
Defined.
